(** * Example notebooks of llama_index: SlackDemo and query-pipeline routing

    A shallow embedding of the code cells of

    - [docs/examples/data_connectors/SlackDemo.ipynb]
    - [docs/examples/pipeline/query_pipeline_routing.ipynb]

    Every cell is a computation in a state-and-exception monad.  The classes
    the notebooks import from [llama_index] (readers, indices, selectors,
    retrievers, synthesizers) are not part of the two files: their types and
    their behaviour are parameters of the development (classes
    [FrameworkTypes] and [Framework]).  Each call into them is recorded in a
    trace, in the order in which the interpreter makes it. *)

From stdpp Require Import base strings gmap list pretty.
From Stdlib Require Import ZArith Lia.

Set Warnings "-register-all".

Local Open Scope string_scope.
Local Open Scope Z_scope.
Local Open Scope list_scope.

(** ** Python values, exceptions *)

Module Py.

(** Exceptions.  [KeyError] and [TypeError] are the ones the notebook's own
    subscript expressions can raise; the framework may raise any of them. *)
Inductive exn : Type :=
| KeyError (key : string)
| TypeError
| AttributeError (name : string)
| IndexError
| ValueError (msg : string)
| ExternalError (kind : string).

(** Result of evaluating an expression or a statement. *)
Inductive res (A : Type) : Type :=
| Ok (a : A)
| Raise (e : exn).
Arguments Ok {A} a.
Arguments Raise {A} e.


(** Scalars stored in the dictionary that [select_choice] returns. *)
Inductive scalar : Type :=
| PStr (s : string)
| PInt (z : Z).

(** [a == b] on scalars: a [str] never equals an [int]. *)
Definition py_eq (a b : scalar) : bool :=
  match a, b with
  | PStr s, PStr t => String.eqb s t
  | PInt x, PInt y => Z.eqb x y
  | _, _ => false
  end.

(** [str(n)] for an [int]: decimal digits, a leading [-] when negative. *)
Definition str_int (n : Z) : string := pretty n.

(** [len(l)] followed by [str]. *)
Definition str_len {A} (l : list A) : string := str_int (Z.of_nat (length l)).

End Py.
Export Py.

(** ** The framework the notebooks call into *)

(** Types of the objects the framework hands out, and the state of the
    outside world (network services, files, the language model). *)
Class FrameworkTypes : Type := {
  World : Type;
  Document : Type;
  Index : Type;
  Retriever : Type;
  QueryEngine : Type;
  LLM : Type;
  ServiceContext : Type;
  TreeSummarize : Type;
  Selector : Type;
  SelectorResult : Type;
  Node : Type;
  Response : Type;
  SlackReader : Type;
  SimpleDirectoryReader : Type
}.

(** One constructor per call expression of the notebooks, with the arguments
    the notebooks pass.  A keyword argument that a notebook passes at one call
    site and omits at another is an [option]. *)
Inductive call `{FrameworkTypes} : Type :=
| shell (cmd : string)
| SlackReader_init (slack_token : option string)
| SlackReader_load_data (reader : SlackReader) (channel_ids : list string)
| SimpleDirectoryReader_init (input_files : list string)
| SimpleDirectoryReader_load_data (reader : SimpleDirectoryReader)
| OpenAI_init (model : string)
| ServiceContext_from_defaults (llm : LLM)
| TreeSummarize_init (service_context : ServiceContext)
| VectorStoreIndex_from_documents (documents : list Document)
| SummaryIndex_from_documents (documents : list Document)
| as_retriever (index : Index) (similarity_top_k : option Z)
| as_query_engine (index : Index) (similarity_top_k : option Z)
| LLMSingleSelector_from_defaults
| selector_select (selector : Selector) (choices : list string) (query : string)
| llm_complete (llm : LLM) (prompt : string)
| query_engine_query (engine : QueryEngine) (query : string)
| retriever_retrieve (retriever : Retriever) (query : string)
| summarizer_synthesize (summarizer : TreeSummarize) (query_str : string)
                        (nodes : list Node)
| pyvis_show (nodes : list string) (edges : list (string * string))
             (file : string).

(** What each call returns when it does not raise. *)
Definition ret `{FrameworkTypes} (c : call) : Type :=
  match c with
  | shell _ => unit
  | SlackReader_init _ => SlackReader
  | SlackReader_load_data _ _ => list Document
  | SimpleDirectoryReader_init _ => SimpleDirectoryReader
  | SimpleDirectoryReader_load_data _ => list Document
  | OpenAI_init _ => LLM
  | ServiceContext_from_defaults _ => ServiceContext
  | TreeSummarize_init _ => TreeSummarize
  | VectorStoreIndex_from_documents _ => Index
  | SummaryIndex_from_documents _ => Index
  | as_retriever _ _ => Retriever
  | as_query_engine _ _ => QueryEngine
  | LLMSingleSelector_from_defaults => Selector
  | selector_select _ _ _ => SelectorResult
  | llm_complete _ _ => string
  | query_engine_query _ _ => Response
  | retriever_retrieve _ _ => list Node
  | summarizer_synthesize _ _ _ => Response
  | pyvis_show _ _ _ => unit
  end.

(** Values that travel along the links of a pipeline. *)
Inductive value `{FrameworkTypes} : Type :=
| VStr (s : string)
| VInt (z : Z)
| VDict (d : gmap string scalar)
| VNodes (nodes : list Node)
| VResponse (r : Response).

(** Behaviour of the framework.  [perform] runs a call: it sees the process
    environment and the [openai.api_key] global as they are at that moment,
    may change the world, and returns a value or raises. *)
Class Framework `{FrameworkTypes} : Type := {
  perform : ∀ c : call,
    gmap string string → option string → World → res (ret c) * World;
  (** [PromptTemplate(t).format(query_str=q)] *)
  format_prompt : string → string → string;
  (** the [ind] property of a selector result *)
  SelectorResult_ind : SelectorResult → res Z;
  (** the [reason] property of a selector result *)
  SelectorResult_reason : SelectorResult → string;
  (** the identifier the framework generates for a module that is put into
      a chain without a name; [n] counts the modules so named *)
  generated_key : nat → string;
  (** [str(response)] *)
  Response_str : Response → string;
  (** [response.source_nodes] *)
  source_nodes : Response → list Node;
  (** the text [str] gives for a dictionary and for a list of nodes; the
      notebooks never print either *)
  repr_dict : gmap string scalar → string;
  repr_nodes : list Node → string
}.

(** ** Interpreter state and the cell monad *)

Section Kernel.
Context `{FT : FrameworkTypes}.

(** What a cell shows below itself.  [RunningModule] is the line a
    pipeline built with [verbose=True] prints before it runs a module,
    [SelectingComponent] the line a router built with [verbose=True] prints
    once its selector has chosen. *)
Inductive output : Type :=
| Printed (text : string)            (* print(...) *)
| DisplayedMarkdown (text : string)  (* display(Markdown(...)) *)
| CellValue (text : string)          (* value of the last expression *)
| RunningModule (name : string) (kwargs : gmap string value)
                                     (* "> Running module ... with input:" *)
| SelectingComponent (ind : Z) (reason : string).
                                     (* "Selecting component ...: ..." *)

Record state : Type := mkState {
  environ : gmap string string;       (* os.environ *)
  openai_api_key : option string;     (* openai.api_key *)
  root_handlers : list string;        (* streams of the root logger *)
  root_level : option string;         (* level of the root logger *)
  outputs : list output;
  trace : list call;                  (* calls made so far, oldest first *)
  world : World
}.

Definition M (A : Type) : Type := state → res A * state.

Definition ret_ {A} (a : A) : M A := λ s, (Ok a, s).
Definition raise {A} (e : exn) : M A := λ s, (Raise e, s).
Definition bind {A B} (m : M A) (k : A → M B) : M B :=
  λ s, match m s with
       | (Ok a, s') => k a s'
       | (Raise e, s') => (Raise e, s')
       end.
Definition lift {A} (r : res A) : M A := λ s, (r, s).

Definition set_environ (k v : string) : M unit :=
  λ s, (Ok (), mkState (<[k:=v]> (environ s)) (openai_api_key s)
                 (root_handlers s) (root_level s) (outputs s) (trace s)
                 (world s)).
Definition getenv (k : string) : M (option string) :=
  λ s, (Ok (environ s !! k), s).
Definition set_openai_api_key (k : string) : M unit :=
  λ s, (Ok (), mkState (environ s) (Some k) (root_handlers s)
                 (root_level s) (outputs s) (trace s) (world s)).

(** [logging.basicConfig(stream=..., level=...)] configures the root logger
    only while it has no handler. *)
Definition logging_basicConfig (stream level : string) : M unit :=
  λ s, match root_handlers s with
       | [] => (Ok (), mkState (environ s) (openai_api_key s) [stream]
                         (Some level) (outputs s) (trace s) (world s))
       | _ :: _ => (Ok (), s)
       end.
(** [logging.getLogger().addHandler(logging.StreamHandler(stream=...))] *)
Definition logging_addHandler (stream : string) : M unit :=
  λ s, (Ok (), mkState (environ s) (openai_api_key s)
                 (root_handlers s ++ [stream]) (root_level s) (outputs s)
                 (trace s) (world s)).

Definition emit (o : output) : M unit :=
  λ s, (Ok (), mkState (environ s) (openai_api_key s) (root_handlers s)
                 (root_level s) (outputs s ++ [o]) (trace s) (world s)).

(** The modules a verbose pipeline announced, in order. *)
Definition modules_run (os : list output) : list string :=
  omap (λ o, match o with RunningModule n _ => Some n | _ => None end) os.

Context `{FW : !Framework}.

(** A call into the framework: recorded, then performed. *)
Definition do_call (c : call) : M (ret c) :=
  λ s, let '(r, w) := perform c (environ s) (openai_api_key s) (world s) in
       (r, mkState (environ s) (openai_api_key s) (root_handlers s)
             (root_level s) (outputs s) (trace s ++ [c]) w).

(** [!cmd]: IPython hands the line to a shell and does not look at the
    exit status, so the cell goes on whatever became of the command. *)
Definition shell_escape (cmd : string) : M unit :=
  λ s, let '(_, w) := perform (shell cmd) (environ s) (openai_api_key s)
                        (world s) in
       (Ok (), mkState (environ s) (openai_api_key s) (root_handlers s)
                 (root_level s) (outputs s) (trace s ++ [shell cmd]) w).

(** The state right after the call [c] was made in [s] and left the world
    as [w]: one more entry in the trace, nothing else touched. *)
Definition after_call (s : state) (c : call) (w : World) : state :=
  mkState (environ s) (openai_api_key s) (root_handlers s) (root_level s)
    (outputs s) (trace s ++ [c]) w.
End Kernel.

(** The monad operations unfold once they are applied to a state. *)
Arguments ret_ {FT A} a s /.
Arguments raise {FT A} e s /.
Arguments bind {FT A B} m k s /.
Arguments lift {FT A} r s /.
Arguments set_environ {FT} k v s /.
Arguments getenv {FT} k s /.
Arguments set_openai_api_key {FT} k s /.
Arguments logging_basicConfig {FT} stream level s /.
Arguments logging_addHandler {FT} stream s /.
Arguments emit {FT} o s /.
Arguments do_call {FT FW} c s /.
Arguments shell_escape {FT FW} cmd s /.

Notation "x <- c1 ;; c2" := (bind c1 (λ x, c2))
  (at level 100, c1 at next level, right associativity).
Notation "c1 ;;; c2" := (bind c1 (λ _, c2))
  (at level 100, right associativity).

(** ** docs/examples/data_connectors/SlackDemo.ipynb *)

Module SlackDemo.
Section Cells.
Context `{FT : FrameworkTypes} `{FW : !Framework}.

(** The first code cell installs packages with shell escapes and ends with
    the instruction to restart the notebook; the session proper starts at
    the cell after it. *)

(** Cell "dc664882": logging, the bot token, the OpenAI key. *)
Definition cell_credentials : M unit :=
  logging_basicConfig "sys.stdout" "INFO" ;;;
  logging_addHandler "sys.stdout" ;;;
  set_environ "SLACK_BOT_TOKEN" "xoxb-" ;;;
  set_openai_api_key "sk-".

Definition channel_ids : list string := ["<channel_id>"].

(** Cell "da90589a": read the channels. *)
Definition cell_load : M (list Document) :=
  slack_token <- getenv "SLACK_BOT_TOKEN" ;;
  reader <- do_call (SlackReader_init slack_token) ;;
  do_call (SlackReader_load_data reader channel_ids).

(** Cell "341295df". *)
Definition cell_index (documents : list Document) : M Index :=
  do_call (SummaryIndex_from_documents documents).

(** Cell "01c26b9d". *)
Definition cell_query (index : Index) : M Response :=
  query_engine <- do_call (as_query_engine index None) ;;
  do_call (query_engine_query query_engine "<query_text>").

(** Cell "f160c678": [display(Markdown(f"<b>{response}</b>"))]. *)
Definition cell_display (response : Response) : M unit :=
  emit (DisplayedMarkdown ("<b>" +:+ Response_str response +:+ "</b>")).

(** The cells in notebook order; the value is the [response] variable. *)
Definition notebook : M Response :=
  cell_credentials ;;;
  documents <- cell_load ;;
  index <- cell_index documents ;;
  response <- cell_query index ;;
  cell_display response ;;;
  ret_ response.
End Cells.
End SlackDemo.

(** ** docs/examples/pipeline/query_pipeline_routing.ipynb *)

Module Routing.
Section Cells.
Context `{FT : FrameworkTypes} `{FW : !Framework}.

Definition of_scalar (a : scalar) : value :=
  match a with PStr s => VStr s | PInt z => VInt z end.

(** [x[k]] for a string key: only a dictionary can be subscripted so. *)
Definition getitem (x : value) (k : string) : res scalar :=
  match x with
  | VDict d => match d !! k with
               | Some a => Ok a
               | None => Raise (KeyError k)
               end
  | _ => Raise TypeError
  end.

(** *** Cell 3: load the essay *)
Definition cell_download : M unit :=
  shell_escape "wget 'https://raw.githubusercontent.com/run-llama/llama_index/main/docs/examples/data/paul_graham/paul_graham_essay.txt' -O 'data/paul_graham/paul_graham_essay.txt' -O pg_essay.txt".

Definition cell_documents : M (list Document) :=
  reader <- do_call (SimpleDirectoryReader_init ["pg_essay.txt"]) ;;
  do_call (SimpleDirectoryReader_load_data reader).

(** *** Cell 5: llm, synthesizer, indices, retrievers, engines, selector *)
Definition hyde_str : string :=
"Please write a passage to answer the question: {query_str}

Try to include as many key details as possible.

Passage: ".

Definition summary_qrewrite_str : string :=
"Here's a question:
{query_str}

You are responsible for feeding the question to an agent that given context will try to answer the question.
The context may or may not be relevant. Rewrite the question to highlight the fact that
only some pieces of context (or none) maybe be relevant.
".

(** The names the cell binds and later cells use. *)
Record defined_modules : Type := mkModules {
  llm : LLM;
  summarizer : TreeSummarize;
  vector_retriever : Retriever;
  vector_query_engine : QueryEngine;
  summary_retriever : Retriever;
  summary_query_engine : QueryEngine;
  selector : Selector
}.

Definition cell_define_modules (documents : list Document)
  : M defined_modules :=
  llm <- do_call (OpenAI_init "gpt-3.5-turbo") ;;
  service_context <- do_call (ServiceContext_from_defaults llm) ;;
  summarizer <- do_call (TreeSummarize_init service_context) ;;
  vector_index <- do_call (VectorStoreIndex_from_documents documents) ;;
  vector_retriever <- do_call (as_retriever vector_index (Some 2)) ;;
  vector_query_engine <- do_call (as_query_engine vector_index (Some 2)) ;;
  summary_index <- do_call (SummaryIndex_from_documents documents) ;;
  summary_retriever <- do_call (as_retriever summary_index None) ;;
  summary_query_engine <- do_call (as_query_engine summary_index None) ;;
  selector <- do_call LLMSingleSelector_from_defaults ;;
  ret_ (mkModules llm summarizer vector_retriever vector_query_engine
          summary_retriever summary_query_engine selector).

(** *** Pipeline modules

    The notebooks put framework objects of several classes into pipelines;
    the constructor says which class the object has. *)
Inductive component : Type :=
| InputComponent
| FnComponent (param : string) (fn : string → M (gmap string scalar))
| PromptTemplate (template : string)
| LLMComponent (llm : LLM)
| QueryEngineComponent (engine : QueryEngine)
| RetrieverComponent (retriever : Retriever)
| SummarizerComponent (summarizer : TreeSummarize)
| QueryPipeline_chain (chain : list (string * component)) (verbose : bool)
| RouterComponent (selector : Selector) (choices : list string)
                  (components : list component) (verbose : bool).

(** [hyde_prompt] and [summary_qrewrite_prompt] of cell 5; the first is
    defined and never used. *)
Definition hyde_prompt : component := PromptTemplate hyde_str.
Definition summary_qrewrite_prompt : component :=
  PromptTemplate summary_qrewrite_str.

(** *** Cell 8: the two chains behind a router

    A pipeline built from a chain names its modules itself: the five
    modules of the cell get the generated identifiers 0 to 4, in the order
    in which the cell builds the pipelines.  [vector_chain] is the one
    pipeline of the cell built without [verbose=True].  Cell 15 binds
    [choices] again, to the same two strings. *)
Definition choices : list string :=
  ["This tool answers specific questions about the document (not summary questions across the document)";
   "This tool answers summary questions about the document (not specific questions)"].

Definition vector_chain (m : defined_modules) : component :=
  QueryPipeline_chain
    [(generated_key 0%nat, QueryEngineComponent (vector_query_engine m))]
    false.

Definition summary_chain (m : defined_modules) : component :=
  QueryPipeline_chain
    [(generated_key 1%nat, summary_qrewrite_prompt);
     (generated_key 2%nat, LLMComponent (llm m));
     (generated_key 3%nat, QueryEngineComponent (summary_query_engine m))]
    true.

Definition router_c (m : defined_modules) : component :=
  RouterComponent (selector m) choices [vector_chain m; summary_chain m]
    true.

Definition qp_router (m : defined_modules) : component :=
  QueryPipeline_chain [(generated_key 4%nat, router_c m)] true.

(** *** Cell 15: the selector wrapped in a function *)
Definition select_choice (query : string) : M (gmap string scalar) :=
  selector <- do_call LLMSingleSelector_from_defaults ;;
  output <- do_call (selector_select selector choices query) ;;
  ind <- lift (SelectorResult_ind output) ;;
  ret_ ({[ "query" := PStr query; "index" := PStr (str_int ind) ]}
          : gmap string scalar).

(** *** Cells 17 and 19: modules and links of the second pipeline *)
Record link : Type := mkLink {
  src : string;
  dest : string;
  dest_key : option string;
  condition_fn : option (value → res bool);
  input_fn : option (value → res value)
}.

Record QueryPipeline : Type := mkPipeline {
  modules : list (string * component);
  links : list link
}.

Definition add_link (qp : QueryPipeline) (l : link) : QueryPipeline :=
  mkPipeline (modules qp) (links qp ++ [l]).

Definition cell_modules (m : defined_modules) : QueryPipeline :=
  mkPipeline
    [("input", InputComponent);
     ("selector", FnComponent "query" select_choice);
     ("vector_retriever", RetrieverComponent (vector_retriever m));
     ("summary_retriever", RetrieverComponent (summary_retriever m));
     ("summarizer", SummarizerComponent (summarizer m))]
    [].

(** [lambda x: x["index"] == "0"] *)
Definition condition_fn_vector (x : value) : res bool :=
  match getitem x "index" with
  | Ok a => Ok (py_eq a (PStr "0"))
  | Raise e => Raise e
  end.

(** [lambda x: x["index"] == "1"] *)
Definition condition_fn_summary (x : value) : res bool :=
  match getitem x "index" with
  | Ok a => Ok (py_eq a (PStr "1"))
  | Raise e => Raise e
  end.

(** [lambda x: x["query"]], the [input_fn] of both conditional links *)
Definition input_fn_query (x : value) : res value :=
  match getitem x "query" with
  | Ok a => Ok (of_scalar a)
  | Raise e => Raise e
  end.

Definition cell_links (qp : QueryPipeline) : QueryPipeline :=
  let qp := add_link qp (mkLink "input" "selector" None None None) in
  let qp := add_link qp (mkLink "selector" "vector_retriever" None
                           (Some condition_fn_vector) (Some input_fn_query)) in
  let qp := add_link qp (mkLink "selector" "summary_retriever" None
                           (Some condition_fn_summary) (Some input_fn_query)) in
  let qp := add_link qp (mkLink "vector_retriever" "summarizer"
                           (Some "nodes") None None) in
  let qp := add_link qp (mkLink "summary_retriever" "summarizer"
                           (Some "nodes") None None) in
  add_link qp (mkLink "input" "summarizer" (Some "query_str") None None).

Definition qp_links (m : defined_modules) : QueryPipeline :=
  cell_links (cell_modules m).

(** *** Running a pipeline

    [QueryPipeline.run], [RouterComponent] and the way a module reads its
    keyword arguments belong to the framework, not to the notebook. *)

(** Modelled from the spec: a module asking for a keyword argument it was
    not given (the framework's input validation is missing; which exception
    it raises is this development's choice). *)
Definition get_input (kwargs : gmap string value) (k : string) : M value :=
  match kwargs !! k with
  | Some v => ret_ v
  | None => raise (ValueError ("missing input " +:+ k))
  end.

(** Modelled from the spec: a module that takes a query string, or a list
    of nodes, handed something else (the framework's input validation is
    missing). *)
Definition as_str (v : value) : M string :=
  match v with VStr s => ret_ s | _ => raise TypeError end.

Definition as_nodes (v : value) : M (list Node) :=
  match v with VNodes ns => ret_ ns | _ => raise TypeError end.

#[local] Arguments get_input kwargs k s /.
#[local] Arguments as_str v s /.
#[local] Arguments as_nodes v s /.

(** Modelled from the spec: the keyword under which a module takes the
    output of its predecessor when a link names none.  The framework's
    module classes are missing; the keys are the ones the recorded outputs
    of the run cells show ("Running module ... with input: query: ..."). *)
Definition input_key (c : component) : string :=
  match c with
  | InputComponent => "input"
  | FnComponent param _ => param
  | PromptTemplate _ => "query_str"
  | LLMComponent _ => "messages"
  | QueryEngineComponent _ => "input"
  | RetrieverComponent _ => "input"
  | SummarizerComponent _ => "query_str"
  | QueryPipeline_chain chain _ =>
      match chain with
      | (_, InputComponent) :: _ => "input"
      | (_, FnComponent param _) :: _ => param
      | (_, PromptTemplate _) :: _ => "query_str"
      | (_, LLMComponent _) :: _ => "messages"
      | (_, RouterComponent _ _ _ _) :: _ => "query"
      | _ => "input"
      end
  | RouterComponent _ _ _ _ => "query"
  end.

(** Python list indexing: a negative index counts from the end. *)
Definition py_index (len : nat) (i : Z) : option nat :=
  if (0 <=? i) && (i <? Z.of_nat len) then Some (Z.to_nat i)
  else if (i <? 0) && (- Z.of_nat len <=? i) then Some (Z.to_nat (Z.of_nat len + i))
  else None.

(** Modelled from the spec: running one module on its keyword arguments
    ([run_component] of the framework's module classes is missing).  A
    chain feeds each module's output to the next module; a router asks its
    selector for an index and runs the sub-pipeline at that index on the
    query ("a selector node that conditionally routes a query to one branch
    or the other based on a language-model-produced choice").  What a chain
    and a router built with [verbose=True] print follows the recorded
    output of cells 10 and 11: a chain announces each module and its
    keyword arguments before it runs it, a router says which component it
    selected and why before it runs that component. *)
Fixpoint run_component (c : component) (kwargs : gmap string value)
  : M value :=
  match c with
  | InputComponent => get_input kwargs "input"
  | FnComponent param fn =>
      v <- get_input kwargs param ;;
      q <- as_str v ;;
      d <- fn q ;;
      ret_ (VDict d)
  | PromptTemplate template =>
      v <- get_input kwargs "query_str" ;;
      q <- as_str v ;;
      ret_ (VStr (format_prompt template q))
  | LLMComponent llm =>
      v <- get_input kwargs "messages" ;;
      p <- as_str v ;;
      r <- do_call (llm_complete llm p) ;;
      ret_ (VStr r)
  | QueryEngineComponent engine =>
      v <- get_input kwargs "input" ;;
      q <- as_str v ;;
      r <- do_call (query_engine_query engine q) ;;
      ret_ (VResponse r)
  | RetrieverComponent retriever =>
      v <- get_input kwargs "input" ;;
      q <- as_str v ;;
      ns <- do_call (retriever_retrieve retriever q) ;;
      ret_ (VNodes ns)
  | SummarizerComponent summarizer =>
      v <- get_input kwargs "query_str" ;;
      q <- as_str v ;;
      w <- get_input kwargs "nodes" ;;
      ns <- as_nodes w ;;
      r <- do_call (summarizer_synthesize summarizer q ns) ;;
      ret_ (VResponse r)
  | QueryPipeline_chain chain verbose =>
      (fix run_chain (cs : list (string * component))
           (kwargs : gmap string value) : M value :=
         match cs with
         | [] => raise (ValueError "empty pipeline")
         | (name, c) :: rest =>
             (if verbose then emit (RunningModule name kwargs)
              else ret_ ()) ;;;
             v <- run_component c kwargs ;;
             match rest with
             | [] => ret_ v
             | (_, c') :: _ => run_chain rest {[ input_key c' := v ]}
             end
         end) chain kwargs
  | RouterComponent selector choices components verbose =>
      v <- get_input kwargs "query" ;;
      q <- as_str v ;;
      output <- do_call (selector_select selector choices q) ;;
      ind <- lift (SelectorResult_ind output) ;;
      match py_index (length components) ind with
      | None => raise IndexError
      | Some n =>
          (if verbose
           then emit (SelectingComponent ind (SelectorResult_reason output))
           else ret_ ()) ;;;
          (fix pick (cs : list component) (n : nat) : M value :=
             match cs with
             | [] => raise IndexError
             | c :: cs' =>
                 match n with
                 | O => run_component c {[ input_key c := VStr q ]}
                 | S n' => pick cs' n'
                 end
             end) components n
      end
  end.

(** Modelled from the spec: [qp.run("...")] on a chain ([QueryPipeline.run]
    is missing); the positional argument is the input of the first
    module. *)
Definition run_chain_pipeline (qp : component) (query : string) : M value :=
  run_component qp {[ input_key qp := VStr query ]}.

(** Modelled from the spec: the graph of a pipeline with links (the
    framework keeps it in a [networkx] graph, missing here): the module of a
    name, the modules without outgoing and without incoming links, and the
    key under which a link delivers. *)
Definition lookup_module (qp : QueryPipeline) (name : string)
  : option component :=
  match List.find (λ m, String.eqb (fst m) name) (modules qp) with
  | Some (_, c) => Some c
  | None => None
  end.

Definition is_leaf (qp : QueryPipeline) (name : string) : bool :=
  forallb (λ l, negb (String.eqb (src l) name)) (links qp).

Definition is_root (qp : QueryPipeline) (name : string) : bool :=
  forallb (λ l, negb (String.eqb (dest l) name)) (links qp).

Definition link_key (qp : QueryPipeline) (l : link) : string :=
  match dest_key l with
  | Some k => k
  | None => match lookup_module qp (dest l) with
            | Some c => input_key c
            | None => "input"
            end
  end.

(** Modelled from the spec: the state of a run of a pipeline with links
    (the run loop of [QueryPipeline.run] is missing): the keyword arguments
    gathered so far for every module, the modules whose conditional link
    was not picked, and the outputs of the leaves. *)
Record run_state : Type := mkRun {
  module_inputs : gmap string (gmap string value);
  removed : list string;
  result_outputs : list (string * value)
}.

(** Modelled from the spec: what happens to the output of module [name]
    (the link handling of [QueryPipeline.run] is missing).  Following the
    notebook's own description, "You can make the edges in a graph
    conditional, meaning that they are only picked if certain conditions
    are met": a link without [condition_fn], or whose [condition_fn] is
    true of the output, hands the output (through [input_fn] when there is
    one) to its destination under the link's key; a link whose
    [condition_fn] is false takes its destination out of the run. *)
Fixpoint process_links (qp : QueryPipeline) (ls : list link) (name : string)
    (out : value) (st : run_state) : res run_state :=
  match ls with
  | [] => Ok st
  | l :: ls' =>
      if String.eqb (src l) name then
        match match input_fn l with Some f => f out | None => Ok out end with
        | Raise e => Raise e
        | Ok v =>
            match
              match condition_fn l with Some p => p out | None => Ok true end
            with
            | Raise e => Raise e
            | Ok true =>
                let kw := default ∅ (module_inputs st !! dest l) in
                process_links qp ls' name out
                  (mkRun (<[dest l := <[link_key qp l := v]> kw]>
                            (module_inputs st))
                     (removed st) (result_outputs st))
            | Ok false =>
                process_links qp ls' name out
                  (mkRun (module_inputs st) (removed st ++ [dest l])
                     (result_outputs st))
            end
        end
      else process_links qp ls' name out st
  end.

(** Modelled from the spec: [QueryPipeline.run] for a pipeline given by
    modules and links (missing from the notebooks).  The modules are
    visited in the order of the [modules] dictionary, which for the
    notebook's pipeline is a topological order of its links; a module taken
    out of the run is passed over; every other module is announced
    ([verbose=True]) and run on the keyword arguments gathered for it. *)
Fixpoint run_modules (qp : QueryPipeline) (ms : list (string * component))
    (st : run_state) : M run_state :=
  match ms with
  | [] => ret_ st
  | (name, c) :: ms' =>
      if existsb (String.eqb name) (removed st) then run_modules qp ms' st
      else
        let kw := default ∅ (module_inputs st !! name) in
        emit (RunningModule name kw) ;;;
        out <- run_component c kw ;;
        st' <- (if is_leaf qp name
                then ret_ (mkRun (module_inputs st) (removed st)
                             (result_outputs st ++ [(name, out)]))
                else lift (process_links qp (links qp) name out st)) ;;
        run_modules qp ms' st'
  end.

(** Modelled from the spec: [qp.run(input="...")] ([QueryPipeline.run] is
    missing); the keyword arguments go to the root module, the value is the
    output of the single leaf. *)
Definition run_pipeline (qp : QueryPipeline) (input : string) : M value :=
  match List.filter (λ m, is_root qp (fst m)) (modules qp) with
  | [(root, _)] =>
      st <- run_modules qp (modules qp)
              (mkRun {[ root := {[ "input" := VStr input ]} ]} [] []) ;;
      match result_outputs st with
      | [(_, v)] => ret_ v
      | _ => raise (ValueError "expected one output")
      end
  | _ => raise (ValueError "expected one root")
  end.

(** [str(x)] for a value of a pipeline. *)
Definition str_value (v : value) : string :=
  match v with
  | VStr s => s
  | VInt z => str_int z
  | VDict d => repr_dict d
  | VNodes ns => repr_nodes ns
  | VResponse r => Response_str r
  end.

(** Cells 10 and 11: [response = qp.run(q); print(str(response))]. *)
Definition cell_run_router (qp : component) (q : string) : M value :=
  response <- run_chain_pipeline qp q ;;
  emit (Printed (str_value response)) ;;;
  ret_ response.

(** Modelled from the spec: the edges of [qp.clean_dag] (the property and
    the [networkx] graph behind it are missing), in the order in which the
    graph hands them out: node by node in the order the modules were added,
    and for each node its outgoing links in the order they were added. *)
Definition dag_edges (qp : QueryPipeline) : list (string * string) :=
  mjoin ((λ n, (λ l, (src l, dest l)) <$>
                 List.filter (λ l, String.eqb (src l) n) (links qp))
           <$> (fst <$> modules qp)).

(** Cell 21: draw the graph with pyvis. *)
Definition cell_visualize (qp : QueryPipeline) : M unit :=
  do_call (pyvis_show (fst <$> modules qp) (dag_edges qp) "rag_dag.html").

(** Cells 23 and 25: [response = qp.run(input=q); print(str(response))]. *)
Definition cell_run_links (qp : QueryPipeline) (q : string) : M value :=
  response <- run_pipeline qp q ;;
  emit (Printed (str_value response)) ;;;
  ret_ response.

(** Cells 24 and 26: [len(response.source_nodes)]. *)
Definition cell_len (response : value) : M unit :=
  match response with
  | VResponse r => emit (CellValue (str_len (source_nodes r)))
  | _ => raise (AttributeError "source_nodes")
  end.

Definition q_specific : string :=
  "What did the author do during his time in YC?".
Definition q_summary : string := "What is a summary of this document?".

(** The code cells in notebook order. *)
Definition notebook : M unit :=
  cell_download ;;;
  documents <- cell_documents ;;
  m <- cell_define_modules documents ;;
  cell_run_router (qp_router m) q_specific ;;;
  cell_run_router (qp_router m) q_summary ;;;
  cell_visualize (qp_links m) ;;;
  r1 <- cell_run_links (qp_links m) q_specific ;;
  cell_len r1 ;;;
  r2 <- cell_run_links (qp_links m) q_summary ;;
  cell_len r2.

(** *** The two runs written out

    What running each of the notebook's two pipelines on a query amounts
    to, as straight-line code with the routing made explicit.  Lemmas
    [run_router_unrolled] and [run_links_unrolled] prove them equal to
    [run_chain_pipeline (qp_router m)] and [run_pipeline (qp_links m)]. *)

Definition router_run (m : defined_modules) (q : string) : M value :=
  emit (RunningModule (generated_key 4%nat) {[ "query" := VStr q ]}) ;;;
  output <- do_call (selector_select (selector m) choices q) ;;
  ind <- lift (SelectorResult_ind output) ;;
  if (ind =? 0) || (ind =? -2) then
    emit (SelectingComponent ind (SelectorResult_reason output)) ;;;
    r <- do_call (query_engine_query (vector_query_engine m) q) ;;
    ret_ (VResponse r)
  else if (ind =? 1) || (ind =? -1) then
    emit (SelectingComponent ind (SelectorResult_reason output)) ;;;
    emit (RunningModule (generated_key 1%nat) {[ "query_str" := VStr q ]}) ;;;
    emit (RunningModule (generated_key 2%nat)
            {[ "messages" := VStr (format_prompt summary_qrewrite_str q) ]}) ;;;
    rewritten <- do_call (llm_complete (llm m)
                            (format_prompt summary_qrewrite_str q)) ;;
    emit (RunningModule (generated_key 3%nat) {[ "input" := VStr rewritten ]}) ;;;
    r <- do_call (query_engine_query (summary_query_engine m) rewritten) ;;
    ret_ (VResponse r)
  else raise IndexError.

Definition branch_run (m : defined_modules) (q : string) (name : string)
    (retriever : Retriever) : M value :=
  emit (RunningModule name {[ "input" := VStr q ]}) ;;;
  nodes <- do_call (retriever_retrieve retriever q) ;;
  emit (RunningModule "summarizer"
          {[ "query_str" := VStr q; "nodes" := VNodes nodes ]}) ;;;
  r <- do_call (summarizer_synthesize (summarizer m) q nodes) ;;
  ret_ (VResponse r).

Definition links_run (m : defined_modules) (q : string) : M value :=
  emit (RunningModule "input" {[ "input" := VStr q ]}) ;;;
  emit (RunningModule "selector" {[ "query" := VStr q ]}) ;;;
  selector <- do_call LLMSingleSelector_from_defaults ;;
  output <- do_call (selector_select selector choices q) ;;
  ind <- lift (SelectorResult_ind output) ;;
  if ind =? 0 then
    branch_run m q "vector_retriever" (vector_retriever m)
  else if ind =? 1 then
    branch_run m q "summary_retriever" (summary_retriever m)
  else
    emit (RunningModule "summarizer" {[ "query_str" := VStr q ]}) ;;;
    raise (ValueError "missing input nodes").


(** The retrievers among the modules a run announced. *)
Definition branches_run (os : list output) : list string :=
  filter (λ n, n = "vector_retriever" ∨ n = "summary_retriever")
    (modules_run os).



End Cells.
Arguments get_input {FT} kwargs k s /.
Arguments as_str {FT} v s /.
Arguments as_nodes {FT} v s /.
End Routing.

(** ** Reading a trace *)

Section Reading.
Context `{FT : FrameworkTypes}.

(** Calls into the chat-workspace reader. *)
Definition is_slack_call (c : call) : bool :=
  match c with
  | SlackReader_init _ | SlackReader_load_data _ _ => true
  | _ => false
  end.

(** What a call asks of the language model, if anything: the selector
    ([LLMSingleSelector]) has it choose among the choices, a query engine
    and the [TreeSummarize] synthesizer have it write the answer, and the
    [OpenAI] object used as a pipeline step has it complete the prompt it
    is handed. *)
Inductive llm_purpose : Type := Selection | Synthesis | Completion.

Definition llm_use (c : call) : option llm_purpose :=
  match c with
  | selector_select _ _ _ => Some Selection
  | query_engine_query _ _ => Some Synthesis
  | summarizer_synthesize _ _ _ => Some Synthesis
  | llm_complete _ _ => Some Completion
  | _ => None
  end.

(** Every call a computation makes satisfies [P], however it ends. *)
Definition calls_satisfy {A} (P : call → Prop) (m : M A) : Prop :=
  ∀ s, ∃ new, trace (m s).2 = trace s ++ new ∧ Forall P new.



Context `{FW : !Framework}.


End Reading.

(** ** Reading a run *)

Section Frames.
Context `{FT : FrameworkTypes} `{FW : !Framework}.

(** A computation leaves [os.environ] and [openai.api_key] as they are,
    however it ends. *)
Definition keeps_credentials {A} (m : M A) : Prop :=
  ∀ s, environ (m s).2 = environ s
       ∧ openai_api_key (m s).2 = openai_api_key s.

(** A computation makes at most [n] calls, each of them satisfying [P],
    however it ends. *)
Definition calls_at_most {A} (n : nat) (P : call → Prop) (m : M A) : Prop :=
  ∀ s, ∃ new, trace (m s).2 = trace s ++ new
              ∧ (length new ≤ n)%nat ∧ Forall P new.

(** The calls a query through the router can make with the objects [m] of
    cell 5. *)
Definition router_call (m : Routing.defined_modules) (q : string) (c : call)
  : Prop :=
  c = selector_select (Routing.selector m) Routing.choices q
  ∨ c = llm_complete (Routing.llm m)
          (format_prompt Routing.summary_qrewrite_str q)
  ∨ c = query_engine_query (Routing.vector_query_engine m) q
  ∨ ∃ rewritten,
      c = query_engine_query (Routing.summary_query_engine m) rewritten.

(** The calls a query through the pipeline with links can make. *)
Definition links_call (m : Routing.defined_modules) (q : string) (c : call)
  : Prop :=
  c = LLMSingleSelector_from_defaults
  ∨ (∃ sel, c = selector_select sel Routing.choices q)
  ∨ c = retriever_retrieve (Routing.vector_retriever m) q
  ∨ c = retriever_retrieve (Routing.summary_retriever m) q
  ∨ ∃ nodes, c = summarizer_synthesize (Routing.summarizer m) q nodes.
End Frames.

(** ** A small framework to run the notebooks on

    The calls are answered from a script: the world holds the indices the
    selector will answer, one per [select], and says whether the chat
    workspace can be reached.  Objects are the data they were built from. *)

Module Scripted.

Record script : Type := mkScript {
  selections : list Z;
  slack_online : bool
}.

Definition types : FrameworkTypes := {|
  World := script;
  Document := string;
  Index := list string;
  Retriever := list string * option Z;
  QueryEngine := list string * option Z;
  LLM := string;
  ServiceContext := string;
  TreeSummarize := string;
  Selector := unit;
  SelectorResult := Z;
  Node := string;
  Response := string * list string;
  SlackReader := option string;
  SimpleDirectoryReader := list string
|}.

Definition top (k : option Z) (docs : list string) : list string :=
  match k with
  | Some n => take (Z.to_nat n) docs
  | None => docs
  end.

Definition answer (c : @call types) (env : gmap string string)
    (key : option string) (w : script) : res (@ret types c) * script :=
  match c return res (@ret types c) * script with
  | shell _ => (Ok (), w)
  | SlackReader_init token => (Ok token, w)
  | SlackReader_load_data reader channels =>
      if slack_online w
      then (Ok ((λ c, "messages of " +:+ c) <$> channels), w)
      else (Raise (ExternalError "network"), w)
  | SimpleDirectoryReader_init files => (Ok files, w)
  | SimpleDirectoryReader_load_data files =>
      (Ok ((λ f, "text of " +:+ f) <$> files), w)
  | OpenAI_init model => (Ok model, w)
  | ServiceContext_from_defaults llm => (Ok llm, w)
  | TreeSummarize_init sc => (Ok sc, w)
  | VectorStoreIndex_from_documents docs => (Ok docs, w)
  | SummaryIndex_from_documents docs => (Ok docs, w)
  | as_retriever index k => (Ok (index, k), w)
  | as_query_engine index k => (Ok (index, k), w)
  | LLMSingleSelector_from_defaults =>
      match key with
      | Some _ => (Ok (), w)
      | None => (Raise (ExternalError "authentication"), w)
      end
  | selector_select _ _ _ =>
      match selections w with
      | i :: rest => (Ok i, mkScript rest (slack_online w))
      | [] => (Raise (ExternalError "malformed response"), w)
      end
  | llm_complete _ prompt => (Ok ("assistant: " +:+ prompt), w)
  | query_engine_query (docs, k) q => (Ok (q, top k docs), w)
  | retriever_retrieve (docs, k) _ => (Ok (top k docs), w)
  | summarizer_synthesize _ q nodes => (Ok (q, nodes), w)
  | pyvis_show _ _ _ => (Ok (), w)
  end.

Definition framework : @Framework types := {|
  perform := answer;
  format_prompt := λ template q, template +:+ q;
  SelectorResult_ind := λ i, Ok i;
  SelectorResult_reason := λ i, "choice " +:+ str_int i;
  generated_key := λ n, "module-" +:+ pretty n;
  Response_str := λ r, fst r;
  source_nodes := λ r, snd r;
  repr_dict := λ _, "{...}";
  repr_nodes := λ _, "[...]"
|}.

(** A framework in which no call ever fails and the selector answers [i]
    to every question; objects are as in [framework]. *)
Definition steady (i : Z) : @Framework types := {|
  perform := λ c env key w,
    match c return res (@ret types c) * script with
    | SlackReader_load_data _ channels =>
        (Ok ((λ c, "messages of " +:+ c) <$> channels), w)
    | LLMSingleSelector_from_defaults => (Ok (), w)
    | selector_select _ _ _ => (Ok i, w)
    | c => answer c env key w
    end;
  format_prompt := λ template q, template +:+ q;
  SelectorResult_ind := λ i, Ok i;
  SelectorResult_reason := λ i, "choice " +:+ str_int i;
  generated_key := λ n, "module-" +:+ pretty n;
  Response_str := λ r, fst r;
  source_nodes := λ r, snd r;
  repr_dict := λ _, "{...}";
  repr_nodes := λ _, "[...]"
|}.

(** A fresh kernel in a world [w]. *)
Definition fresh (w : script) : @state types :=
  @mkState types ∅ None [] None [] [] w.

(** A kernel in which the credentials cell has run. *)
Definition ready (w : script) : @state types :=
  @mkState types ∅ (Some "sk-") [] None [] [] w.

(** The objects cell 5 defines over the one-document essay. *)
Definition essay_modules : @Routing.defined_modules types :=
  @Routing.mkModules types "gpt-3.5-turbo" "gpt-3.5-turbo"
    (["text of pg_essay.txt"], Some 2) (["text of pg_essay.txt"], Some 2)
    (["text of pg_essay.txt"], None) (["text of pg_essay.txt"], None) ().

End Scripted.

(** * Properties *)

#[local] Arguments str_int : simpl never.
#[local] Arguments py_eq : simpl never.
#[local] Arguments Z.eqb : simpl never.
#[local] Arguments Routing.py_index : simpl never.
#[local] Arguments Routing.process_links {FT} qp !ls name !out !st.
#[local] Arguments Routing.run_modules {FT FW} qp !ms !st s.
#[local] Arguments Routing.select_choice {FT FW} query s /.
#[local] Arguments Routing.getitem {FT} !x k /.
#[local] Arguments Routing.input_fn_query {FT} !x /.
#[local] Arguments Routing.condition_fn_vector {FT} !x /.
#[local] Arguments Routing.condition_fn_summary {FT} !x /.
#[local] Arguments Routing.run_pipeline : simpl never.
#[local] Arguments Routing.run_chain_pipeline : simpl never.
#[local] Arguments Routing.str_value {FT FW} !v /.

(** Lookups in dictionaries written out with concrete keys. *)
Ltac map_lookups :=
  repeat first
    [ rewrite lookup_insert_eq
    | rewrite lookup_insert_ne by discriminate
    | rewrite lookup_singleton_eq
    | rewrite lookup_singleton_ne by discriminate
    | rewrite lookup_empty ].

(** Run a cell as far as it goes without an answer from the framework. *)
Ltac settle := repeat (progress (cbn; map_lookups)).

(** Use what the hypotheses say the framework answers. *)
Ltac answer_step :=
  match goal with
  | H : perform ?c ?e ?k ?w = _ |- context [perform ?c ?e ?k ?w] => rewrite H
  | H : SelectorResult_ind ?o = _ |- context [SelectorResult_ind ?o] =>
      rewrite H
  | H : (?i =? ?n) = _ |- context [?i =? ?n] => rewrite H
  | |- context [Z.eqb ?a ?b] =>
      let v := eval vm_compute in (Z.eqb a b) in
      lazymatch v with
      | true => change (Z.eqb a b) with true
      | false => change (Z.eqb a b) with false
      end
  end.
Ltac answered := settle; repeat (answer_step; settle).

(** ** Python facts *)

Lemma str_int_inj i j : str_int i = str_int j → i = j.
Proof. apply (inj (pretty : Z → string)). Qed.

Example str_int_examples :
  str_int 0 = "0" ∧ str_int 1 = "1" ∧ str_int 12 = "12" ∧ str_int (-3) = "-3".
Proof. repeat split; reflexivity. Qed.

Lemma py_eq_str_int i j : py_eq (PStr (str_int i)) (PStr (str_int j)) = (i =? j).
Proof.
  unfold py_eq. destruct (Z.eqb_spec i j) as [->|Hne].
  - apply String.eqb_refl.
  - apply String.eqb_neq. intros H. apply Hne, str_int_inj, H.
Qed.

Lemma py_eq_index_0 i : py_eq (PStr (str_int i)) (PStr "0") = (i =? 0).
Proof. exact (py_eq_str_int i 0). Qed.

Lemma py_eq_index_1 i : py_eq (PStr (str_int i)) (PStr "1") = (i =? 1).
Proof. exact (py_eq_str_int i 1). Qed.

Lemma py_eq_true a b : py_eq a b = true ↔ a = b.
Proof.
  destruct a as [s|x], b as [t|y]; unfold py_eq; split;
    try discriminate; intros H.
  - f_equal. by apply String.eqb_eq.
  - injection H as ->. apply String.eqb_refl.
  - f_equal. by apply Z.eqb_eq.
  - injection H as ->. apply Z.eqb_refl.
Qed.

Lemma py_index_two i :
  Routing.py_index 2 i =
    if (i =? 0) || (i =? -2) then Some 0%nat
    else if (i =? 1) || (i =? -1) then Some 1%nat
    else None.
Proof.
  unfold Routing.py_index.
  destruct (Z.eqb_spec i 0) as [->|]; [reflexivity|].
  destruct (Z.eqb_spec i (-2)) as [->|]; [reflexivity|].
  destruct (Z.eqb_spec i 1) as [->|]; [reflexivity|].
  destruct (Z.eqb_spec i (-1)) as [->|]; [reflexivity|].
  cbn [orb].
  destruct (Z.leb_spec 0 i), (Z.ltb_spec i (Z.of_nat 2)),
    (Z.ltb_spec i 0), (Z.leb_spec (- Z.of_nat 2) i); cbn [andb];
    try reflexivity; exfalso; lia.
Qed.

(** ** The runs of the two pipelines, unrolled *)

(** Follow both sides of an equation between runs, case by case on what the
    framework answers. *)
Ltac case_step :=
  match goal with
  | |- context [py_eq (PStr (str_int ?i)) (PStr "0")] =>
      rewrite (py_eq_index_0 i); destruct (i =? 0) eqn:?
  | |- context [py_eq (PStr (str_int ?i)) (PStr "1")] =>
      rewrite (py_eq_index_1 i); destruct (i =? 1) eqn:?;
      try (exfalso; lia)
  | |- context [Routing.py_index 2 ?i] => rewrite (py_index_two i)
  | |- context [if ?b then _ else _] =>
      lazymatch b with
      | context [Z.eqb] => destruct b eqn:?; try (exfalso; lia)
      end
  | |- context [SelectorResult_ind ?o] =>
      destruct (SelectorResult_ind o) as [?|?] eqn:?
  | |- context [perform ?c ?e ?k ?w] =>
      destruct (perform c e k w) as [[?|?] ?] eqn:?
  end.
Ltac cases := settle; repeat (case_step; settle).

Section Unrolled.
Context `{FT : FrameworkTypes} `{FW : !Framework}.

Lemma run_links_unrolled m q s :
  Routing.run_pipeline (Routing.qp_links m) q s = Routing.links_run m q s.
Proof.
  unfold Routing.run_pipeline, Routing.links_run, Routing.branch_run.
  cases; vm_compute; reflexivity.
Qed.

Lemma run_router_unrolled m q s :
  Routing.run_chain_pipeline (Routing.qp_router m) q s
  = Routing.router_run m q s.
Proof.
  unfold Routing.run_chain_pipeline, Routing.router_run.
  cases; try (vm_compute; reflexivity).
Qed.
End Unrolled.

(** ** The selector's dictionary and the two conditional links *)

Section Selector.
Context `{FT : FrameworkTypes} `{FW : !Framework}.

(** C9.  For every query [q], whenever the selector is built and answers
    with a result whose index is [i], [select_choice q] returns the
    dictionary with exactly the two keys "query" and "index": under "query"
    the string [q] itself, under "index" the decimal rendering of [i]. *)
Theorem select_choice_returns_query_and_index
    (q : string) (s : state) sel w1 out w2 i :
  perform LLMSingleSelector_from_defaults
    (environ s) (openai_api_key s) (world s) = (Ok sel, w1) →
  perform (selector_select sel Routing.choices q)
    (environ s) (openai_api_key s) w1 = (Ok out, w2) →
  SelectorResult_ind out = Ok i →
  ∃ d s',
    Routing.select_choice q s = (Ok d, s')
    ∧ dom d = {[ "query"; "index" ]}
    ∧ d !! "query" = Some (PStr q)
    ∧ d !! "index" = Some (PStr (str_int i))
    ∧ world s' = w2.
Proof.
  intros Hsel Hout Hind.
  eexists _, _. split; [answered; reflexivity|].
  split; [|split; [|split]]; [|by map_lookups|by map_lookups|reflexivity].
  rewrite dom_insert_L, dom_singleton_L. set_solver.
Qed.

Lemma conditions_exclusive (x : value) :
  ¬ (Routing.condition_fn_vector x = Ok true
     ∧ Routing.condition_fn_summary x = Ok true).
Proof.
  intros [Hv Hs]. destruct x as [| |d| |]; try discriminate.
  cbn in Hv, Hs. destruct (d !! "index") as [a|]; [|discriminate].
  injection Hv as Hv. injection Hs as Hs.
  apply py_eq_true in Hv, Hs. congruence.
Qed.

Lemma conditions_other_index (d : gmap string scalar) (a : scalar) :
  d !! "index" = Some a → a ≠ PStr "0" → a ≠ PStr "1" →
  Routing.condition_fn_vector (VDict d) = Ok false
  ∧ Routing.condition_fn_summary (VDict d) = Ok false.
Proof.
  intros Hd H0 H1. cbn. rewrite Hd.
  split; f_equal; apply not_true_is_false; intros H;
    apply py_eq_true in H; congruence.
Qed.

Lemma links_run_branches m q s :
  ∃ new,
    outputs (Routing.run_pipeline (Routing.qp_links m) q s).2
      = outputs s ++ new
    ∧ (length (Routing.branches_run new) ≤ 1)%nat.
Proof.
  rewrite run_links_unrolled.
  unfold Routing.links_run, Routing.branch_run.
  cases; (eexists; split; [rewrite <- ?app_assoc; reflexivity|]);
    vm_compute; lia.
Qed.

Lemma links_run_other_index m q s sel w1 out w2 i :
  perform LLMSingleSelector_from_defaults
    (environ s) (openai_api_key s) (world s) = (Ok sel, w1) →
  perform (selector_select sel Routing.choices q)
    (environ s) (openai_api_key s) w1 = (Ok out, w2) →
  SelectorResult_ind out = Ok i →
  i ≠ 0 → i ≠ 1 →
  let s' := (Routing.run_pipeline (Routing.qp_links m) q s).2 in
  outputs s' = outputs s ++
    [RunningModule "input" {[ "input" := VStr q ]};
     RunningModule "selector" {[ "query" := VStr q ]};
     RunningModule "summarizer" {[ "query_str" := VStr q ]}]
  ∧ trace s' = trace s ++
      [LLMSingleSelector_from_defaults;
       selector_select sel Routing.choices q].
Proof.
  intros Hsel Hout Hind H0 H1.
  apply Z.eqb_neq in H0, H1.
  rewrite run_links_unrolled. unfold Routing.links_run.
  answered. rewrite <- !app_assoc. split; reflexivity.
Qed.

(** C10.  The conditions of the two links that leave the selector are
    never both true, whatever value they are applied to, so a run
    announces at most one of [vector_retriever] and [summary_retriever];
    they are not exhaustive: for an index other than "0" and "1" both are
    false, no retriever runs, and the summarizer is run on keyword
    arguments that hold "query_str" only, without "nodes". *)
Theorem conditional_links_exclusive_not_exhaustive :
  (∀ x : value,
     ¬ (Routing.condition_fn_vector x = Ok true
        ∧ Routing.condition_fn_summary x = Ok true))
  ∧ (∀ m q s, ∃ new,
       outputs (Routing.run_pipeline (Routing.qp_links m) q s).2
         = outputs s ++ new
       ∧ (length (Routing.branches_run new) ≤ 1)%nat)
  ∧ (∀ (d : gmap string scalar) (a : scalar),
       d !! "index" = Some a → a ≠ PStr "0" → a ≠ PStr "1" →
       Routing.condition_fn_vector (VDict d) = Ok false
       ∧ Routing.condition_fn_summary (VDict d) = Ok false)
  ∧ (∀ m q s sel w1 out w2 i,
       perform LLMSingleSelector_from_defaults
         (environ s) (openai_api_key s) (world s) = (Ok sel, w1) →
       perform (selector_select sel Routing.choices q)
         (environ s) (openai_api_key s) w1 = (Ok out, w2) →
       SelectorResult_ind out = Ok i →
       i ≠ 0 → i ≠ 1 →
       let s' := (Routing.run_pipeline (Routing.qp_links m) q s).2 in
       outputs s' = outputs s ++
         [RunningModule "input" {[ "input" := VStr q ]};
          RunningModule "selector" {[ "query" := VStr q ]};
          RunningModule "summarizer" {[ "query_str" := VStr q ]}]
       ∧ trace s' = trace s ++
           [LLMSingleSelector_from_defaults;
            selector_select sel Routing.choices q]).
Proof.
  split; [exact conditions_exclusive|].
  split; [exact links_run_branches|].
  split; [exact conditions_other_index|].
  exact links_run_other_index.
Qed.
End Selector.

(** ** Routing by the selector's index *)

Section RoutingByIndex.
Context `{FT : FrameworkTypes} `{FW : !Framework}.

Lemma define_modules_ties docs s m s' :
  Routing.cell_define_modules docs s = (Ok m, s') →
  ∃ sc vi si w1 w2 w3 w4 w5 w6 w7 w8 w9,
    perform (OpenAI_init "gpt-3.5-turbo")
      (environ s) (openai_api_key s) (world s)
    = (Ok (Routing.llm m), w1)
    ∧ perform (ServiceContext_from_defaults (Routing.llm m))
        (environ s) (openai_api_key s) w1
      = (Ok sc, w2)
    ∧ perform (TreeSummarize_init sc)
        (environ s) (openai_api_key s) w2
      = (Ok (Routing.summarizer m), w3)
    ∧ perform (VectorStoreIndex_from_documents docs)
        (environ s) (openai_api_key s) w3
      = (Ok vi, w4)
    ∧ perform (as_retriever vi (Some 2))
        (environ s) (openai_api_key s) w4
      = (Ok (Routing.vector_retriever m), w5)
    ∧ perform (as_query_engine vi (Some 2))
        (environ s) (openai_api_key s) w5
      = (Ok (Routing.vector_query_engine m), w6)
    ∧ perform (SummaryIndex_from_documents docs)
        (environ s) (openai_api_key s) w6
      = (Ok si, w7)
    ∧ perform (as_retriever si None)
        (environ s) (openai_api_key s) w7
      = (Ok (Routing.summary_retriever m), w8)
    ∧ perform (as_query_engine si None)
        (environ s) (openai_api_key s) w8
      = (Ok (Routing.summary_query_engine m), w9)
    ∧ perform LLMSingleSelector_from_defaults
        (environ s) (openai_api_key s) w9
      = (Ok (Routing.selector m), world s')
    ∧ trace s' = trace s ++
        [OpenAI_init "gpt-3.5-turbo";
         ServiceContext_from_defaults (Routing.llm m);
         TreeSummarize_init sc;
         VectorStoreIndex_from_documents docs;
         as_retriever vi (Some 2);
         as_query_engine vi (Some 2);
         SummaryIndex_from_documents docs;
         as_retriever si None;
         as_query_engine si None;
         LLMSingleSelector_from_defaults].
Proof.
  unfold Routing.cell_define_modules.
  cases; intros H; try discriminate.
  injection H as <- <-. cbn. eexists _, _, _, _, _, _, _, _, _, _, _, _.
  repeat (split; [first [reflexivity|eassumption]|]).
  rewrite <- !app_assoc. reflexivity.
Qed.

Lemma define_modules_builds docs s llm w1 sc w2 summarizer w3 vi w4 vr w5
    vqe w6 si w7 sr w8 sqe w9 selector w10 :
  perform (OpenAI_init "gpt-3.5-turbo")
    (environ s) (openai_api_key s) (world s) = (Ok llm, w1) →
  perform (ServiceContext_from_defaults llm)
    (environ s) (openai_api_key s) w1 = (Ok sc, w2) →
  perform (TreeSummarize_init sc)
    (environ s) (openai_api_key s) w2 = (Ok summarizer, w3) →
  perform (VectorStoreIndex_from_documents docs)
    (environ s) (openai_api_key s) w3 = (Ok vi, w4) →
  perform (as_retriever vi (Some 2))
    (environ s) (openai_api_key s) w4 = (Ok vr, w5) →
  perform (as_query_engine vi (Some 2))
    (environ s) (openai_api_key s) w5 = (Ok vqe, w6) →
  perform (SummaryIndex_from_documents docs)
    (environ s) (openai_api_key s) w6 = (Ok si, w7) →
  perform (as_retriever si None)
    (environ s) (openai_api_key s) w7 = (Ok sr, w8) →
  perform (as_query_engine si None)
    (environ s) (openai_api_key s) w8 = (Ok sqe, w9) →
  perform LLMSingleSelector_from_defaults
    (environ s) (openai_api_key s) w9 = (Ok selector, w10) →
  ∃ s',
    Routing.cell_define_modules docs s
    = (Ok (Routing.mkModules llm summarizer vr vqe sr sqe selector), s')
    ∧ world s' = w10.
Proof.
  intros. unfold Routing.cell_define_modules.
  answered. eexists. split; reflexivity.
Qed.

Lemma router_routes_to_vector m q s out w1 r w2 :
  perform (selector_select (Routing.selector m) Routing.choices q)
    (environ s) (openai_api_key s) (world s) = (Ok out, w1) →
  SelectorResult_ind out = Ok 0 →
  perform (query_engine_query (Routing.vector_query_engine m) q)
    (environ s) (openai_api_key s) w1 = (Ok r, w2) →
  ∃ s',
    Routing.cell_run_router (Routing.qp_router m) q s
      = (Ok (VResponse r), s')
    ∧ trace s' = trace s ++
        [selector_select (Routing.selector m) Routing.choices q;
         query_engine_query (Routing.vector_query_engine m) q]
    ∧ outputs s' = outputs s ++
        [RunningModule (generated_key 4) {[ "query" := VStr q ]};
         SelectingComponent 0 (SelectorResult_reason out);
         Printed (Response_str r)].
Proof.
  intros Hsel Hind Hq. unfold Routing.cell_run_router. cbn.
  rewrite run_router_unrolled. unfold Routing.router_run.
  answered. eexists. split; [reflexivity|]. cbn.
  rewrite <- !app_assoc. split; reflexivity.
Qed.

Lemma router_routes_to_summary m q s out w1 rewritten w2 r w3 :
  perform (selector_select (Routing.selector m) Routing.choices q)
    (environ s) (openai_api_key s) (world s) = (Ok out, w1) →
  SelectorResult_ind out = Ok 1 →
  perform (llm_complete (Routing.llm m)
             (format_prompt Routing.summary_qrewrite_str q))
    (environ s) (openai_api_key s) w1 = (Ok rewritten, w2) →
  perform (query_engine_query (Routing.summary_query_engine m) rewritten)
    (environ s) (openai_api_key s) w2 = (Ok r, w3) →
  ∃ s',
    Routing.cell_run_router (Routing.qp_router m) q s
      = (Ok (VResponse r), s')
    ∧ trace s' = trace s ++
        [selector_select (Routing.selector m) Routing.choices q;
         llm_complete (Routing.llm m)
           (format_prompt Routing.summary_qrewrite_str q);
         query_engine_query (Routing.summary_query_engine m) rewritten]
    ∧ outputs s' = outputs s ++
        [RunningModule (generated_key 4) {[ "query" := VStr q ]};
         SelectingComponent 1 (SelectorResult_reason out);
         RunningModule (generated_key 1) {[ "query_str" := VStr q ]};
         RunningModule (generated_key 2)
           {[ "messages" :=
                VStr (format_prompt Routing.summary_qrewrite_str q) ]};
         RunningModule (generated_key 3) {[ "input" := VStr rewritten ]};
         Printed (Response_str r)].
Proof.
  intros Hsel Hind Hllm Hq. unfold Routing.cell_run_router. cbn.
  rewrite run_router_unrolled. unfold Routing.router_run.
  answered. eexists. split; [reflexivity|]. cbn.
  rewrite <- !app_assoc. split; reflexivity.
Qed.

Lemma links_route_to_vector m q s sel w1 out w2 nodes w3 r w4 :
  perform LLMSingleSelector_from_defaults
    (environ s) (openai_api_key s) (world s) = (Ok sel, w1) →
  perform (selector_select sel Routing.choices q)
    (environ s) (openai_api_key s) w1 = (Ok out, w2) →
  SelectorResult_ind out = Ok 0 →
  perform (retriever_retrieve (Routing.vector_retriever m) q)
    (environ s) (openai_api_key s) w2 = (Ok nodes, w3) →
  perform (summarizer_synthesize (Routing.summarizer m) q nodes)
    (environ s) (openai_api_key s) w3 = (Ok r, w4) →
  ∃ s',
    Routing.cell_run_links (Routing.qp_links m) q s
      = (Ok (VResponse r), s')
    ∧ trace s' = trace s ++
        [LLMSingleSelector_from_defaults;
         selector_select sel Routing.choices q;
         retriever_retrieve (Routing.vector_retriever m) q;
         summarizer_synthesize (Routing.summarizer m) q nodes]
    ∧ outputs s' = outputs s ++
        [RunningModule "input" {[ "input" := VStr q ]};
         RunningModule "selector" {[ "query" := VStr q ]};
         RunningModule "vector_retriever" {[ "input" := VStr q ]};
         RunningModule "summarizer"
           {[ "query_str" := VStr q; "nodes" := VNodes nodes ]};
         Printed (Response_str r)].
Proof.
  intros Hsel Hout Hind Hret Hsyn. unfold Routing.cell_run_links. cbn.
  rewrite run_links_unrolled.
  unfold Routing.links_run, Routing.branch_run.
  answered. eexists. split; [reflexivity|]. cbn.
  rewrite <- !app_assoc. split; reflexivity.
Qed.

Lemma links_route_to_summary m q s sel w1 out w2 nodes w3 r w4 :
  perform LLMSingleSelector_from_defaults
    (environ s) (openai_api_key s) (world s) = (Ok sel, w1) →
  perform (selector_select sel Routing.choices q)
    (environ s) (openai_api_key s) w1 = (Ok out, w2) →
  SelectorResult_ind out = Ok 1 →
  perform (retriever_retrieve (Routing.summary_retriever m) q)
    (environ s) (openai_api_key s) w2 = (Ok nodes, w3) →
  perform (summarizer_synthesize (Routing.summarizer m) q nodes)
    (environ s) (openai_api_key s) w3 = (Ok r, w4) →
  ∃ s',
    Routing.cell_run_links (Routing.qp_links m) q s
      = (Ok (VResponse r), s')
    ∧ trace s' = trace s ++
        [LLMSingleSelector_from_defaults;
         selector_select sel Routing.choices q;
         retriever_retrieve (Routing.summary_retriever m) q;
         summarizer_synthesize (Routing.summarizer m) q nodes]
    ∧ outputs s' = outputs s ++
        [RunningModule "input" {[ "input" := VStr q ]};
         RunningModule "selector" {[ "query" := VStr q ]};
         RunningModule "summary_retriever" {[ "input" := VStr q ]};
         RunningModule "summarizer"
           {[ "query_str" := VStr q; "nodes" := VNodes nodes ]};
         Printed (Response_str r)].
Proof.
  intros Hsel Hout Hind Hret Hsyn. unfold Routing.cell_run_links. cbn.
  rewrite run_links_unrolled.
  unfold Routing.links_run, Routing.branch_run.
  answered. eexists. split; [reflexivity|]. cbn.
  rewrite <- !app_assoc. split; reflexivity.
Qed.

Lemma links_route_to_no_branch m q s sel w1 out w2 i :
  perform LLMSingleSelector_from_defaults
    (environ s) (openai_api_key s) (world s) = (Ok sel, w1) →
  perform (selector_select sel Routing.choices q)
    (environ s) (openai_api_key s) w1 = (Ok out, w2) →
  SelectorResult_ind out = Ok i →
  i ≠ 0 → i ≠ 1 →
  ∃ e s',
    Routing.cell_run_links (Routing.qp_links m) q s = (Raise e, s')
    ∧ trace s' = trace s ++
        [LLMSingleSelector_from_defaults;
         selector_select sel Routing.choices q]
    ∧ outputs s' = outputs s ++
        [RunningModule "input" {[ "input" := VStr q ]};
         RunningModule "selector" {[ "query" := VStr q ]};
         RunningModule "summarizer" {[ "query_str" := VStr q ]}].
Proof.
  intros Hsel Hout Hind H0 H1. apply Z.eqb_neq in H0, H1.
  unfold Routing.cell_run_links. cbn.
  rewrite run_links_unrolled. unfold Routing.links_run.
  answered. eexists _, _. split; [reflexivity|]. cbn.
  rewrite <- !app_assoc. split; reflexivity.
Qed.

Lemma links_run_one_branch m q s :
  (∀ c env key w, ∃ r w', perform c env key w = (Ok r, w')) →
  (∀ sel choices query env key w out w',
     perform (selector_select sel choices query) env key w = (Ok out, w') →
     SelectorResult_ind out = Ok 0 ∨ SelectorResult_ind out = Ok 1) →
  ∃ new text,
    outputs (Routing.cell_run_links (Routing.qp_links m) q s).2
      = outputs s ++ new
    ∧ length (Routing.branches_run new) = 1%nat
    ∧ last new = Some (Printed text).
Proof.
  intros Hall Hind.
  destruct (Hall LLMSingleSelector_from_defaults (environ s)
              (openai_api_key s) (world s)) as (sel & w1 & Hsel).
  destruct (Hall (selector_select sel Routing.choices q) (environ s)
              (openai_api_key s) w1) as (out & w2 & Hout).
  destruct (Hind _ _ _ _ _ _ _ _ Hout) as [Hi|Hi].
  - destruct (Hall (retriever_retrieve (Routing.vector_retriever m) q)
                (environ s) (openai_api_key s) w2) as (nodes & w3 & Hret).
    destruct (Hall (summarizer_synthesize (Routing.summarizer m) q nodes)
                (environ s) (openai_api_key s) w3) as (r & w4 & Hsyn).
    destruct (links_route_to_vector _ _ _ _ _ _ _ _ _ _ _
                Hsel Hout Hi Hret Hsyn) as (s' & E & _ & Eo).
    rewrite E. cbn [snd]. rewrite Eo.
    eexists _, _. split; [reflexivity|]. split; [|reflexivity].
    vm_compute. reflexivity.
  - destruct (Hall (retriever_retrieve (Routing.summary_retriever m) q)
                (environ s) (openai_api_key s) w2) as (nodes & w3 & Hret).
    destruct (Hall (summarizer_synthesize (Routing.summarizer m) q nodes)
                (environ s) (openai_api_key s) w3) as (r & w4 & Hsyn).
    destruct (links_route_to_summary _ _ _ _ _ _ _ _ _ _ _
                Hsel Hout Hi Hret Hsyn) as (s' & E & _ & Eo).
    rewrite E. cbn [snd]. rewrite Eo.
    eexists _, _. split; [reflexivity|]. split; [|reflexivity].
    vm_compute. reflexivity.
Qed.
End RoutingByIndex.

Section RoutingClaim.
Context `{FT : FrameworkTypes} `{FW : !Framework}.

(** C1, as the notebook has it.  Cell 5 builds the vector retriever and
    the vector query engine from one index over the documents, both with
    [similarity_top_k=2], and the summary retriever and query engine from
    another index over the same documents, without it; the names the cell
    binds are exactly what these calls returned.  Behind the router, index
    0 sends the query to the vector engine and index 1 sends it through the
    query-rewrite prompt and the language model to the summary engine; the
    pipelines being verbose, the modules run and the component selected are
    announced before the response is printed.  In the pipeline with
    conditional links, index 0 runs the vector retriever and index 1 the
    summary retriever, and the summarizer then answers from the retrieved
    nodes.  In each of the four cases exactly that branch is called and the
    response is printed.  For any other index the conditional links select
    no branch: no retriever is announced or called and nothing is printed.
    So where no call fails and the selector answers 0 or 1 only, every
    query runs exactly one branch and its response is printed. *)
Theorem routing_by_index_zero_or_one :
  (∀ docs s m s',
     Routing.cell_define_modules docs s = (Ok m, s') →
     ∃ sc vi si w1 w2 w3 w4 w5 w6 w7 w8 w9,
       perform (OpenAI_init "gpt-3.5-turbo")
         (environ s) (openai_api_key s) (world s)
       = (Ok (Routing.llm m), w1)
       ∧ perform (ServiceContext_from_defaults (Routing.llm m))
           (environ s) (openai_api_key s) w1
         = (Ok sc, w2)
       ∧ perform (TreeSummarize_init sc)
           (environ s) (openai_api_key s) w2
         = (Ok (Routing.summarizer m), w3)
       ∧ perform (VectorStoreIndex_from_documents docs)
           (environ s) (openai_api_key s) w3
         = (Ok vi, w4)
       ∧ perform (as_retriever vi (Some 2))
           (environ s) (openai_api_key s) w4
         = (Ok (Routing.vector_retriever m), w5)
       ∧ perform (as_query_engine vi (Some 2))
           (environ s) (openai_api_key s) w5
         = (Ok (Routing.vector_query_engine m), w6)
       ∧ perform (SummaryIndex_from_documents docs)
           (environ s) (openai_api_key s) w6
         = (Ok si, w7)
       ∧ perform (as_retriever si None)
           (environ s) (openai_api_key s) w7
         = (Ok (Routing.summary_retriever m), w8)
       ∧ perform (as_query_engine si None)
           (environ s) (openai_api_key s) w8
         = (Ok (Routing.summary_query_engine m), w9)
       ∧ perform LLMSingleSelector_from_defaults
           (environ s) (openai_api_key s) w9
         = (Ok (Routing.selector m), world s')
       ∧ trace s' = trace s ++
           [OpenAI_init "gpt-3.5-turbo";
            ServiceContext_from_defaults (Routing.llm m);
            TreeSummarize_init sc;
            VectorStoreIndex_from_documents docs;
            as_retriever vi (Some 2);
            as_query_engine vi (Some 2);
            SummaryIndex_from_documents docs;
            as_retriever si None;
            as_query_engine si None;
            LLMSingleSelector_from_defaults])
  ∧ (∀ docs s llm w1 sc w2 summarizer w3 vi w4 vr w5 vqe w6 si w7 sr w8 sqe
       w9 selector w10,
       perform (OpenAI_init "gpt-3.5-turbo")
         (environ s) (openai_api_key s) (world s) = (Ok llm, w1) →
       perform (ServiceContext_from_defaults llm)
         (environ s) (openai_api_key s) w1 = (Ok sc, w2) →
       perform (TreeSummarize_init sc)
         (environ s) (openai_api_key s) w2 = (Ok summarizer, w3) →
       perform (VectorStoreIndex_from_documents docs)
         (environ s) (openai_api_key s) w3 = (Ok vi, w4) →
       perform (as_retriever vi (Some 2))
         (environ s) (openai_api_key s) w4 = (Ok vr, w5) →
       perform (as_query_engine vi (Some 2))
         (environ s) (openai_api_key s) w5 = (Ok vqe, w6) →
       perform (SummaryIndex_from_documents docs)
         (environ s) (openai_api_key s) w6 = (Ok si, w7) →
       perform (as_retriever si None)
         (environ s) (openai_api_key s) w7 = (Ok sr, w8) →
       perform (as_query_engine si None)
         (environ s) (openai_api_key s) w8 = (Ok sqe, w9) →
       perform LLMSingleSelector_from_defaults
         (environ s) (openai_api_key s) w9 = (Ok selector, w10) →
       ∃ s',
         Routing.cell_define_modules docs s
         = (Ok (Routing.mkModules llm summarizer vr vqe sr sqe selector), s')
         ∧ world s' = w10)
  ∧ (∀ m q s out w1 r w2,
       perform (selector_select (Routing.selector m) Routing.choices q)
         (environ s) (openai_api_key s) (world s) = (Ok out, w1) →
       SelectorResult_ind out = Ok 0 →
       perform (query_engine_query (Routing.vector_query_engine m) q)
         (environ s) (openai_api_key s) w1 = (Ok r, w2) →
       ∃ s',
         Routing.cell_run_router (Routing.qp_router m) q s
           = (Ok (VResponse r), s')
         ∧ trace s' = trace s ++
             [selector_select (Routing.selector m) Routing.choices q;
              query_engine_query (Routing.vector_query_engine m) q]
         ∧ outputs s' = outputs s ++
             [RunningModule (generated_key 4) {[ "query" := VStr q ]};
              SelectingComponent 0 (SelectorResult_reason out);
              Printed (Response_str r)])
  ∧ (∀ m q s out w1 rewritten w2 r w3,
       perform (selector_select (Routing.selector m) Routing.choices q)
         (environ s) (openai_api_key s) (world s) = (Ok out, w1) →
       SelectorResult_ind out = Ok 1 →
       perform (llm_complete (Routing.llm m)
                  (format_prompt Routing.summary_qrewrite_str q))
         (environ s) (openai_api_key s) w1 = (Ok rewritten, w2) →
       perform (query_engine_query (Routing.summary_query_engine m) rewritten)
         (environ s) (openai_api_key s) w2 = (Ok r, w3) →
       ∃ s',
         Routing.cell_run_router (Routing.qp_router m) q s
           = (Ok (VResponse r), s')
         ∧ trace s' = trace s ++
             [selector_select (Routing.selector m) Routing.choices q;
              llm_complete (Routing.llm m)
                (format_prompt Routing.summary_qrewrite_str q);
              query_engine_query (Routing.summary_query_engine m) rewritten]
         ∧ outputs s' = outputs s ++
             [RunningModule (generated_key 4) {[ "query" := VStr q ]};
              SelectingComponent 1 (SelectorResult_reason out);
              RunningModule (generated_key 1) {[ "query_str" := VStr q ]};
              RunningModule (generated_key 2)
                {[ "messages" :=
                     VStr (format_prompt Routing.summary_qrewrite_str q) ]};
              RunningModule (generated_key 3) {[ "input" := VStr rewritten ]};
              Printed (Response_str r)])
  ∧ (∀ m q s sel w1 out w2 nodes w3 r w4,
       perform LLMSingleSelector_from_defaults
         (environ s) (openai_api_key s) (world s) = (Ok sel, w1) →
       perform (selector_select sel Routing.choices q)
         (environ s) (openai_api_key s) w1 = (Ok out, w2) →
       SelectorResult_ind out = Ok 0 →
       perform (retriever_retrieve (Routing.vector_retriever m) q)
         (environ s) (openai_api_key s) w2 = (Ok nodes, w3) →
       perform (summarizer_synthesize (Routing.summarizer m) q nodes)
         (environ s) (openai_api_key s) w3 = (Ok r, w4) →
       ∃ s',
         Routing.cell_run_links (Routing.qp_links m) q s
           = (Ok (VResponse r), s')
         ∧ trace s' = trace s ++
             [LLMSingleSelector_from_defaults;
              selector_select sel Routing.choices q;
              retriever_retrieve (Routing.vector_retriever m) q;
              summarizer_synthesize (Routing.summarizer m) q nodes]
         ∧ outputs s' = outputs s ++
             [RunningModule "input" {[ "input" := VStr q ]};
              RunningModule "selector" {[ "query" := VStr q ]};
              RunningModule "vector_retriever" {[ "input" := VStr q ]};
              RunningModule "summarizer"
                {[ "query_str" := VStr q; "nodes" := VNodes nodes ]};
              Printed (Response_str r)])
  ∧ (∀ m q s sel w1 out w2 nodes w3 r w4,
       perform LLMSingleSelector_from_defaults
         (environ s) (openai_api_key s) (world s) = (Ok sel, w1) →
       perform (selector_select sel Routing.choices q)
         (environ s) (openai_api_key s) w1 = (Ok out, w2) →
       SelectorResult_ind out = Ok 1 →
       perform (retriever_retrieve (Routing.summary_retriever m) q)
         (environ s) (openai_api_key s) w2 = (Ok nodes, w3) →
       perform (summarizer_synthesize (Routing.summarizer m) q nodes)
         (environ s) (openai_api_key s) w3 = (Ok r, w4) →
       ∃ s',
         Routing.cell_run_links (Routing.qp_links m) q s
           = (Ok (VResponse r), s')
         ∧ trace s' = trace s ++
             [LLMSingleSelector_from_defaults;
              selector_select sel Routing.choices q;
              retriever_retrieve (Routing.summary_retriever m) q;
              summarizer_synthesize (Routing.summarizer m) q nodes]
         ∧ outputs s' = outputs s ++
             [RunningModule "input" {[ "input" := VStr q ]};
              RunningModule "selector" {[ "query" := VStr q ]};
              RunningModule "summary_retriever" {[ "input" := VStr q ]};
              RunningModule "summarizer"
                {[ "query_str" := VStr q; "nodes" := VNodes nodes ]};
              Printed (Response_str r)])
  ∧ (∀ m q s sel w1 out w2 i,
       perform LLMSingleSelector_from_defaults
         (environ s) (openai_api_key s) (world s) = (Ok sel, w1) →
       perform (selector_select sel Routing.choices q)
         (environ s) (openai_api_key s) w1 = (Ok out, w2) →
       SelectorResult_ind out = Ok i →
       i ≠ 0 → i ≠ 1 →
       ∃ e s',
         Routing.cell_run_links (Routing.qp_links m) q s = (Raise e, s')
         ∧ trace s' = trace s ++
             [LLMSingleSelector_from_defaults;
              selector_select sel Routing.choices q]
         ∧ outputs s' = outputs s ++
             [RunningModule "input" {[ "input" := VStr q ]};
              RunningModule "selector" {[ "query" := VStr q ]};
              RunningModule "summarizer" {[ "query_str" := VStr q ]}])
  ∧ (∀ m q s,
       (∀ c env key w, ∃ r w', perform c env key w = (Ok r, w')) →
       (∀ sel choices query env key w out w',
          perform (selector_select sel choices query) env key w = (Ok out, w') →
          SelectorResult_ind out = Ok 0 ∨ SelectorResult_ind out = Ok 1) →
       ∃ new text,
         outputs (Routing.cell_run_links (Routing.qp_links m) q s).2
           = outputs s ++ new
         ∧ length (Routing.branches_run new) = 1%nat
         ∧ last new = Some (Printed text)).
Proof.
  split; [exact define_modules_ties|].
  split; [exact define_modules_builds|].
  split; [exact router_routes_to_vector|].
  split; [exact router_routes_to_summary|].
  split; [exact links_route_to_vector|].
  split; [exact links_route_to_summary|].
  split; [exact links_route_to_no_branch|exact links_run_one_branch].
Qed.
End RoutingClaim.

(** ** The Slack notebook, and exceptions *)

#[local] Arguments SlackDemo.channel_ids /.

Section SlackAndErrors.
Context `{FT : FrameworkTypes} `{FW : !Framework}.

(** The environment and the key once the credentials cell has run. *)
Local Abbreviation env' s := (<["SLACK_BOT_TOKEN" := "xoxb-"]> (environ s)).
Local Abbreviation key' := (Some "sk-").

Ltac open_slack :=
  unfold SlackDemo.notebook, SlackDemo.cell_credentials,
    SlackDemo.cell_load, SlackDemo.cell_index, SlackDemo.cell_query,
    SlackDemo.cell_display.

(** C2.  The Slack notebook sets the two credentials, then calls, in this
    order and with nothing in between: the reader with the bot token, its
    [load_data] with the channel identifiers, [SummaryIndex.from_documents]
    with exactly the documents the reader returned, [as_query_engine] on
    exactly that index, and [query] on exactly that engine. *)
Theorem slack_notebook_dataflow (s : state) reader w1 docs w2 idx w3 qe w4
    r w5 :
  perform (SlackReader_init (Some "xoxb-")) (env' s) key' (world s)
    = (Ok reader, w1) →
  perform (SlackReader_load_data reader ["<channel_id>"]) (env' s) key' w1
    = (Ok docs, w2) →
  perform (SummaryIndex_from_documents docs) (env' s) key' w2
    = (Ok idx, w3) →
  perform (as_query_engine idx None) (env' s) key' w3 = (Ok qe, w4) →
  perform (query_engine_query qe "<query_text>") (env' s) key' w4
    = (Ok r, w5) →
  ∃ s',
    SlackDemo.notebook s = (Ok r, s')
    ∧ environ s' = env' s
    ∧ openai_api_key s' = key'
    ∧ trace s' = trace s ++
        [SlackReader_init (Some "xoxb-");
         SlackReader_load_data reader ["<channel_id>"];
         SummaryIndex_from_documents docs;
         as_query_engine idx None;
         query_engine_query qe "<query_text>"]
    ∧ outputs s' = outputs s ++
        [DisplayedMarkdown ("<b>" +:+ Response_str r +:+ "</b>")]
    ∧ world s' = w5.
Proof.
  intros Hinit Hload Hidx Hqe Hq. open_slack.
  destruct s as [env key hs lvl outs tr w]; cbn in *.
  destruct hs; answered; eexists; (split; [reflexivity|]); cbn;
    rewrite <- ?app_assoc; repeat split; reflexivity.
Qed.

Lemma slack_notebook_success s r s' :
  SlackDemo.notebook s = (Ok r, s') →
  ∃ reader w1 docs w2 idx w3 qe w4,
    perform (SlackReader_init (Some "xoxb-")) (env' s) key' (world s)
      = (Ok reader, w1)
    ∧ perform (SlackReader_load_data reader ["<channel_id>"])
        (env' s) key' w1 = (Ok docs, w2)
    ∧ perform (SummaryIndex_from_documents docs) (env' s) key' w2
      = (Ok idx, w3)
    ∧ perform (as_query_engine idx None) (env' s) key' w3 = (Ok qe, w4)
    ∧ perform (query_engine_query qe "<query_text>") (env' s) key' w4
      = (Ok r, world s').
Proof.
  open_slack. destruct s as [env key hs lvl outs tr w]; cbn.
  destruct hs; cases; intros H; try discriminate;
    injection H as <- <-; cbn; eexists _, _, _, _, _, _, _, _;
    repeat split; eassumption.
Qed.

Lemma cell_load_reader_fails s e w :
  perform (SlackReader_init (environ s !! "SLACK_BOT_TOKEN"))
    (environ s) (openai_api_key s) (world s) = (Raise e, w) →
  SlackDemo.cell_load s
  = (Raise e,
     after_call s (SlackReader_init (environ s !! "SLACK_BOT_TOKEN")) w).
Proof.
  intros H. unfold SlackDemo.cell_load. answered. reflexivity.
Qed.

Lemma cell_load_calls_load_data s reader w1 r w2 :
  perform (SlackReader_init (environ s !! "SLACK_BOT_TOKEN"))
    (environ s) (openai_api_key s) (world s) = (Ok reader, w1) →
  perform (SlackReader_load_data reader ["<channel_id>"])
    (environ s) (openai_api_key s) w1 = (r, w2) →
  SlackDemo.cell_load s
  = (r, after_call
          (after_call s
             (SlackReader_init (environ s !! "SLACK_BOT_TOKEN")) w1)
          (SlackReader_load_data reader ["<channel_id>"]) w2).
Proof.
  intros H1 H2. unfold SlackDemo.cell_load. answered.
  unfold after_call. cbn. rewrite <- ?app_assoc. reflexivity.
Qed.

Lemma slack_notebook_slack_calls s :
  ∃ new, trace (SlackDemo.notebook s).2 = trace s ++ new
    ∧ (∀ e w,
         perform (SlackReader_init (Some "xoxb-")) (env' s) key' (world s)
         = (Raise e, w) →
         new = [SlackReader_init (Some "xoxb-")])
    ∧ (∀ reader w1,
         perform (SlackReader_init (Some "xoxb-")) (env' s) key' (world s)
         = (Ok reader, w1) →
         List.filter is_slack_call new
         = [SlackReader_init (Some "xoxb-");
            SlackReader_load_data reader ["<channel_id>"]]).
Proof.
  open_slack. destruct s as [env key hs lvl outs tr w]; cbn.
  destruct hs; cases;
    (eexists; split; [rewrite <- ?app_assoc; reflexivity|]);
    (split; [intros ? ? [=]|intros ? ? [= <- <-]]); reflexivity.
Qed.

Lemma slack_documents_under_contract
    (built_with : option string → SlackReader → Prop)
    (history_of : SlackReader → list string → list Document → Prop) :
  (∀ token env key w reader w',
     perform (SlackReader_init token) env key w = (Ok reader, w') →
     built_with token reader) →
  (∀ reader channels env key w documents w',
     perform (SlackReader_load_data reader channels) env key w
     = (Ok documents, w') →
     history_of reader channels documents) →
  ∀ s r s',
    SlackDemo.notebook s = (Ok r, s') →
    ∃ reader documents index w w',
      built_with (Some "xoxb-") reader
      ∧ history_of reader ["<channel_id>"] documents
      ∧ perform (SummaryIndex_from_documents documents) (env' s) key' w
        = (Ok index, w').
Proof.
  intros Hinit Hload s r s' H.
  apply slack_notebook_success in H
    as (reader & w1 & docs & w2 & idx & w3 & _ & _ & H1 & H2 & H3 & _).
  exists reader, docs, idx, w2, w3. eauto.
Qed.

(** C6.  The notebook reaches the chat workspace with two inputs only.
    The reader is built from the bot token found in the environment -- in
    the notebook the token it has just put there -- and nothing else; when
    that raises, the cell ends there with that exception; when it returns a
    reader, [load_data] is called on that reader with the list of channel
    identifiers and nothing else, and what the cell returns or raises is
    what that call returned or raised.  These are the only calls into the
    chat workspace in a run of the notebook.  The repository puts nothing
    of its own between the workspace and the index: whatever the framework
    guarantees of a reader built with a token, and of the documents
    [load_data] returns for a reader and a list of channels -- that they are
    the message history of those channels --, holds of the token and the
    channels of the notebook and of the documents it builds the index
    from. *)
Theorem slack_reader_inputs :
  (∀ s e w,
     perform (SlackReader_init (environ s !! "SLACK_BOT_TOKEN"))
       (environ s) (openai_api_key s) (world s) = (Raise e, w) →
     SlackDemo.cell_load s
     = (Raise e,
        after_call s (SlackReader_init (environ s !! "SLACK_BOT_TOKEN")) w))
  ∧ (∀ s reader w1 r w2,
       perform (SlackReader_init (environ s !! "SLACK_BOT_TOKEN"))
         (environ s) (openai_api_key s) (world s) = (Ok reader, w1) →
       perform (SlackReader_load_data reader ["<channel_id>"])
         (environ s) (openai_api_key s) w1 = (r, w2) →
       SlackDemo.cell_load s
       = (r, after_call
               (after_call s
                  (SlackReader_init (environ s !! "SLACK_BOT_TOKEN")) w1)
               (SlackReader_load_data reader ["<channel_id>"]) w2))
  ∧ (∀ s,
       ∃ new, trace (SlackDemo.notebook s).2 = trace s ++ new
         ∧ (∀ e w,
              perform (SlackReader_init (Some "xoxb-")) (env' s) key' (world s)
              = (Raise e, w) →
              new = [SlackReader_init (Some "xoxb-")])
         ∧ (∀ reader w1,
              perform (SlackReader_init (Some "xoxb-")) (env' s) key' (world s)
              = (Ok reader, w1) →
              List.filter is_slack_call new
              = [SlackReader_init (Some "xoxb-");
                 SlackReader_load_data reader ["<channel_id>"]]))
  ∧ (∀ (built_with : option string → SlackReader → Prop)
       (history_of : SlackReader → list string → list Document → Prop),
       (∀ token env key w reader w',
          perform (SlackReader_init token) env key w = (Ok reader, w') →
          built_with token reader) →
       (∀ reader channels env key w documents w',
          perform (SlackReader_load_data reader channels) env key w
          = (Ok documents, w') →
          history_of reader channels documents) →
       ∀ s r s',
         SlackDemo.notebook s = (Ok r, s') →
         ∃ reader documents index w w',
           built_with (Some "xoxb-") reader
           ∧ history_of reader ["<channel_id>"] documents
           ∧ perform (SummaryIndex_from_documents documents) (env' s) key' w
             = (Ok index, w')).
Proof.
  split; [exact cell_load_reader_fails|].
  split; [exact cell_load_calls_load_data|].
  split; [exact slack_notebook_slack_calls|].
  exact slack_documents_under_contract.
Qed.

(** *** Errors *)














Lemma select_choice_success q s d s' :
  Routing.select_choice q s = (Ok d, s') →
  ∃ sel w1 out i,
    perform LLMSingleSelector_from_defaults
      (environ s) (openai_api_key s) (world s) = (Ok sel, w1)
    ∧ perform (selector_select sel Routing.choices q)
        (environ s) (openai_api_key s) w1 = (Ok out, world s')
    ∧ SelectorResult_ind out = Ok i
    ∧ d = {[ "query" := PStr q; "index" := PStr (str_int i) ]}.
Proof.
  cases; intros H; try discriminate; injection H as <- <-; cbn.
  eexists _, _, _, _. repeat split; eassumption.
Qed.








End SlackAndErrors.

(** ** What the language model is used for *)

Section Calls.
Context `{FT : FrameworkTypes} `{FW : !Framework}.

Lemma calls_pure {A} P (m : M A) :
  (∀ s, trace (m s).2 = trace s) → calls_satisfy P m.
Proof.
  intros H s. exists []. rewrite app_nil_r. split; [apply H|constructor].
Qed.

Lemma calls_do_call P (c : call) : P c → calls_satisfy P (do_call c).
Proof.
  intros Hc s. exists [c]. cbn.
  destruct (perform c _ _ _) as [r w]. cbn. split; [reflexivity|].
  repeat constructor. exact Hc.
Qed.

Lemma calls_shell_escape P (cmd : string) :
  P (shell cmd) → calls_satisfy P (shell_escape cmd).
Proof.
  intros Hc s. exists [shell cmd]. cbn.
  destruct (perform _ _ _ _) as [r w]. cbn. split; [reflexivity|].
  repeat constructor. exact Hc.
Qed.

Lemma calls_bind {A B} P (m : M A) (k : A → M B) :
  calls_satisfy P m → (∀ a, calls_satisfy P (k a)) →
  calls_satisfy P (bind m k).
Proof.
  intros Hm Hk s. destruct (Hm s) as (new1 & Ht1 & HP1). cbn.
  destruct (m s) as [[a|e] s1]; cbn in *.
  - destruct (Hk a s1) as (new2 & Ht2 & HP2).
    exists (new1 ++ new2). rewrite Ht2, Ht1, app_assoc. split; [done|].
    apply Forall_app. done.
  - exists new1. done.
Qed.

Lemma calls_ext {A} P (m m' : M A) :
  (∀ s, m s = m' s) → calls_satisfy P m' → calls_satisfy P m.
Proof. intros E H s. rewrite E. apply H. Qed.

Lemma calls_mono {A} (P Q : call → Prop) (m : M A) :
  (∀ c, P c → Q c) → calls_satisfy P m → calls_satisfy Q m.
Proof.
  intros PQ H s. destruct (H s) as (new & Ht & HP). exists new.
  split; [done|]. eapply Forall_impl; eauto.
Qed.

(** Take a cell apart, statement by statement. *)
Ltac calls :=
  repeat match goal with
    | |- calls_satisfy _ (bind _ _) => apply calls_bind; [|intros ?]
    | |- calls_satisfy ?P (do_call ?c) =>
        apply (calls_do_call P c); cbn; first [discriminate | by eauto]
    | |- calls_satisfy ?P (shell_escape ?c) =>
        apply (calls_shell_escape P c); cbn; first [discriminate | by eauto]
    | |- calls_satisfy _ (if ?b then _ else _) => destruct b
    | |- calls_satisfy _ (match ?x with _ => _ end) => destruct x
    | |- calls_satisfy _ _ =>
        apply calls_pure; intros [? ? [|] ? ? ? ?]; reflexivity
    end.

Lemma slack_notebook_llm_calls :
  calls_satisfy (λ c, llm_use c ≠ Some Completion) SlackDemo.notebook.
Proof.
  unfold SlackDemo.notebook, SlackDemo.cell_credentials,
    SlackDemo.cell_load, SlackDemo.cell_index, SlackDemo.cell_query,
    SlackDemo.cell_display.
  calls.
Qed.

Lemma router_run_llm_calls m q :
  calls_satisfy
    (λ c, llm_use c = Some Completion →
          c = llm_complete (Routing.llm m)
                (format_prompt Routing.summary_qrewrite_str q))
    (Routing.cell_run_router (Routing.qp_router m) q).
Proof.
  unfold Routing.cell_run_router.
  apply calls_bind; [|intros ?; calls].
  apply (calls_ext _ _ _ (run_router_unrolled m q)).
  unfold Routing.router_run. calls.
Qed.

Lemma links_run_llm_calls m q :
  calls_satisfy (λ c, llm_use c ≠ Some Completion)
    (Routing.cell_run_links (Routing.qp_links m) q).
Proof.
  unfold Routing.cell_run_links.
  apply calls_bind; [|intros ?; calls].
  apply (calls_ext _ _ _ (run_links_unrolled m q)).
  unfold Routing.links_run, Routing.branch_run. calls.
Qed.

Lemma routing_notebook_llm_calls :
  calls_satisfy
    (λ c, llm_use c = Some Completion →
          ∃ l q, c = llm_complete l
                       (format_prompt Routing.summary_qrewrite_str q))
    Routing.notebook.
Proof.
  unfold Routing.notebook.
  repeat match goal with
    | |- calls_satisfy _ (bind (Routing.cell_run_router _ _) _) =>
        apply calls_bind;
        [eapply calls_mono; [|apply router_run_llm_calls]; cbn; by eauto
        |intros ?]
    | |- calls_satisfy _ (bind (Routing.cell_run_links _ _) _) =>
        apply calls_bind;
        [eapply calls_mono; [|apply links_run_llm_calls]; cbn; by intros
        |intros ?]
    | |- calls_satisfy _ (bind _ _) => apply calls_bind; [|intros ?]
    end.
  all: unfold Routing.cell_download, Routing.cell_documents,
    Routing.cell_define_modules, Routing.cell_visualize, Routing.cell_len.
  all: calls.
Qed.

(** C5, as the notebooks have it.  Every call that uses the language
    model selects among the choices, synthesizes an answer, or -- in the
    summary chain behind the router, and only there -- completes the
    query-rewrite prompt filled in with the query; the Slack notebook and
    the pipeline with conditional links never call the model in that third
    way. *)
Theorem llm_selects_synthesizes_and_rewrites :
  calls_satisfy (λ c, llm_use c ≠ Some Completion) SlackDemo.notebook
  ∧ (∀ m q,
       calls_satisfy
         (λ c, llm_use c = Some Completion →
               c = llm_complete (Routing.llm m)
                     (format_prompt Routing.summary_qrewrite_str q))
         (Routing.cell_run_router (Routing.qp_router m) q))
  ∧ (∀ m q,
       calls_satisfy (λ c, llm_use c ≠ Some Completion)
         (Routing.cell_run_links (Routing.qp_links m) q))
  ∧ calls_satisfy
      (λ c, llm_use c = Some Completion →
            ∃ l q, c = llm_complete l
                         (format_prompt Routing.summary_qrewrite_str q))
      Routing.notebook.
Proof.
  split; [exact slack_notebook_llm_calls|].
  split; [exact router_run_llm_calls|].
  split; [exact links_run_llm_calls|exact routing_notebook_llm_calls].
Qed.
End Calls.

(** ** The functions on the links *)

Section LinkFunctions.
Context `{FT : FrameworkTypes} `{FW : !Framework}.















End LinkFunctions.

(** * Runs on the scripted framework *)

Section ScriptedRuns.
#[local] Existing Instance Scripted.types.
#[local] Existing Instance Scripted.framework.

Local Abbreviation script := Scripted.mkScript.
Local Abbreviation ready := Scripted.ready.
Local Abbreviation essay := Scripted.essay_modules.

(** With the selector answering 1, [select_choice "q"] returns
    [{"query": "q", "index": "1"}]. *)
Lemma select_choice_returns_query_and_index_witness :
  ∃ d s',
    Routing.select_choice "q" (ready (script [1] true)) = (Ok d, s')
    ∧ dom d = {[ "query"; "index" ]}
    ∧ d !! "query" = Some (PStr "q")
    ∧ d !! "index" = Some (PStr (str_int 1))
    ∧ world s' = script [] true.
Proof.
  apply (select_choice_returns_query_and_index "q"
           (ready (script [1] true)) () (script [1] true) 1
           (script [] true) 1); reflexivity.
Defined.

(** With the selector answering 2 neither retriever runs and the
    summarizer is handed "query_str" only. *)
Lemma conditional_links_exclusive_not_exhaustive_witness :
  let s' := (Routing.run_pipeline (Routing.qp_links essay) "q"
               (ready (script [2] true))).2 in
  outputs s' =
    [RunningModule "input" {[ "input" := VStr "q" ]};
     RunningModule "selector" {[ "query" := VStr "q" ]};
     RunningModule "summarizer" {[ "query_str" := VStr "q" ]}]
  ∧ trace s' =
      [LLMSingleSelector_from_defaults;
       selector_select () Routing.choices "q"].
Proof.
  destruct conditional_links_exclusive_not_exhaustive as (_ & _ & _ & H).
  apply (H essay "q" (ready (script [2] true)) () (script [2] true) 2
           (script [] true) 2); try reflexivity; discriminate.
Defined.

(** C1 as stated fails.  Even where no call into the framework ever fails,
    a query need not run exactly one branch: the selector may answer 2, and
    then the pipeline with conditional links runs no retriever and prints
    nothing. *)
Lemma index_two_routes_to_no_branch :
  ¬ (∀ (FT : FrameworkTypes) (FW : @Framework FT) m q s,
       (∀ c env key w, ∃ r w', perform c env key w = (Ok r, w')) →
       (∀ out, ∃ i, SelectorResult_ind out = Ok i) →
       ∃ new text,
         outputs (Routing.cell_run_links (Routing.qp_links m) q s).2
           = outputs s ++ new
         ∧ length (Routing.branches_run new) = 1%nat
         ∧ last new = Some (Printed text)).
Proof.
  intros H.
  destruct (H Scripted.types (Scripted.steady 2) essay "q"
              (ready (script [] true)))
    as (new & text & Hout & Hlen & _).
  - intros c env key w.
    destruct c as [| | | | | | | | | | | | | | |[]|[]| |]; cbn; eauto.
  - intros out. by exists out.
  - vm_compute in Hout. subst new. vm_compute in Hlen. discriminate.
Qed.

(** Behind the router, with the selector answering 1, the query goes
    through the rewrite prompt and the language model to the summary
    engine, and every step is announced; and where no call fails and the
    selector only ever answers 1, a query through the pipeline with links
    runs exactly one retriever and its response is printed. *)
Lemma routing_by_index_zero_or_one_witness :
  (∃ s',
     Routing.cell_run_router (Routing.qp_router essay) "q"
       (ready (script [1] true))
     = (Ok (VResponse
              ("assistant: " +:+ Routing.summary_qrewrite_str +:+ "q",
               ["text of pg_essay.txt"])), s')
     ∧ trace s' =
         [selector_select () Routing.choices "q";
          llm_complete "gpt-3.5-turbo"
            (Routing.summary_qrewrite_str +:+ "q");
          query_engine_query (["text of pg_essay.txt"], None)
            ("assistant: " +:+ Routing.summary_qrewrite_str +:+ "q")]
     ∧ outputs s' =
         [RunningModule "module-4" {[ "query" := VStr "q" ]};
          SelectingComponent 1 "choice 1";
          RunningModule "module-1" {[ "query_str" := VStr "q" ]};
          RunningModule "module-2"
            {[ "messages" := VStr (Routing.summary_qrewrite_str +:+ "q") ]};
          RunningModule "module-3"
            {[ "input" :=
                 VStr ("assistant: " +:+ Routing.summary_qrewrite_str
                       +:+ "q") ]};
          Printed ("assistant: " +:+ Routing.summary_qrewrite_str +:+ "q")])
  ∧ (∃ new text,
       outputs (@Routing.cell_run_links Scripted.types (Scripted.steady 1)
                  (@Routing.qp_links Scripted.types (Scripted.steady 1)
                     essay)
                  "q" (ready (script [] true))).2
         = outputs (ready (script [] true)) ++ new
       ∧ length (Routing.branches_run new) = 1%nat
       ∧ last new = Some (Printed text)).
Proof.
  split.
  - destruct routing_by_index_zero_or_one as (_ & _ & _ & H & _).
    apply (H essay "q" (ready (script [1] true)) 1 (script [] true)
             ("assistant: " +:+ Routing.summary_qrewrite_str +:+ "q")
             (script [] true)
             ("assistant: " +:+ Routing.summary_qrewrite_str +:+ "q",
              ["text of pg_essay.txt"])
             (script [] true)); reflexivity.
  - destruct (@routing_by_index_zero_or_one Scripted.types
                (Scripted.steady 1)) as (_ & _ & _ & _ & _ & _ & _ & H).
    apply (H essay "q" (ready (script [] true))).
    + intros c env key w.
      destruct c as [| | | | | | | | | | | | | | |[]|[]| |]; cbn; eauto.
    + intros sel choices query env key w out w' [= <- _]. by right.
Defined.

(** The Slack notebook on a reachable workspace. *)
Lemma slack_notebook_dataflow_witness :
  ∃ s',
    SlackDemo.notebook (Scripted.fresh (script [] true))
    = (Ok ("<query_text>", ["messages of <channel_id>"]), s')
    ∧ environ s' = <["SLACK_BOT_TOKEN" := "xoxb-"]> ∅
    ∧ openai_api_key s' = Some "sk-"
    ∧ trace s' =
        [SlackReader_init (Some "xoxb-");
         SlackReader_load_data (Some "xoxb-") ["<channel_id>"];
         SummaryIndex_from_documents ["messages of <channel_id>"];
         as_query_engine ["messages of <channel_id>"] None;
         query_engine_query (["messages of <channel_id>"], None)
           "<query_text>"]
    ∧ outputs s' = [DisplayedMarkdown "<b><query_text></b>"]
    ∧ world s' = script [] true.
Proof.
  exact (slack_notebook_dataflow (Scripted.fresh (script [] true))
           (Some "xoxb-") (script [] true)
           ["messages of <channel_id>"] (script [] true)
           ["messages of <channel_id>"] (script [] true)
           (["messages of <channel_id>"], None) (script [] true)
           ("<query_text>", ["messages of <channel_id>"])
           (script [] true) eq_refl eq_refl eq_refl eq_refl eq_refl).
Defined.

(** With the token in the environment and the workspace within reach,
    the cell builds the reader from that token, calls [load_data] on it
    with the channel identifiers, and returns what that call returned. *)
Lemma slack_reader_inputs_witness :
  let s := @mkState Scripted.types {[ "SLACK_BOT_TOKEN" := "xoxb-" ]}
             None [] None [] [] (script [] true) in
  SlackDemo.cell_load s
  = (Ok ["messages of <channel_id>"],
     after_call
       (after_call s (SlackReader_init (environ s !! "SLACK_BOT_TOKEN"))
          (script [] true))
       (SlackReader_load_data (Some "xoxb-") ["<channel_id>"])
       (script [] true)).
Proof.
  destruct slack_reader_inputs as (_ & H & _).
  intros s.
  apply (H s (Some "xoxb-") (script [] true)
           (Ok ["messages of <channel_id>"]) (script [] true));
    reflexivity.
Defined.




(** C5 as stated fails: behind the router with index 1 the language model
    is called to rewrite the query, which is neither selection nor
    synthesis. *)
Lemma summary_chain_completes_a_prompt :
  ¬ (∀ (FT : FrameworkTypes) (FW : @Framework FT) m q,
       calls_satisfy (λ c, llm_use c ≠ Some Completion)
         (Routing.cell_run_router (Routing.qp_router m) q)).
Proof.
  intros H.
  destruct (H Scripted.types Scripted.framework essay "q"
              (ready (script [1] true))) as (new & Ht & HP).
  vm_compute in Ht. subst new.
  inversion HP as [|? ? _ HP1]. inversion HP1 as [|? ? Hc _].
  apply Hc. reflexivity.
Qed.

(** Behind the router with index 1 the only completion is the rewrite
    prompt filled in with the query. *)
Lemma llm_selects_synthesizes_and_rewrites_witness :
  calls_satisfy
    (λ c, llm_use c = Some Completion →
          c = llm_complete (Routing.llm essay)
                (format_prompt Routing.summary_qrewrite_str "q"))
    (Routing.cell_run_router (Routing.qp_router essay) "q").
Proof.
  destruct llm_selects_synthesizes_and_rewrites as (_ & H & _).
  exact (H essay "q").
Defined.


End ScriptedRuns.

(** * Further properties of the notebooks' code *)

(** ** The graph of cells 17 and 19 *)

Section Graph.
Context `{FT : FrameworkTypes} `{FW : !Framework}.

(** X3.  Whatever objects cell 5 defined, the pipeline of cells 17 and 19
    is a well-formed acyclic graph: its module names are distinct, every
    link joins two of its modules and points from a module to one declared
    later, nothing flows into "input" and nothing out of "summarizer", and
    the links that carry a [condition_fn] or an [input_fn] are exactly the
    ones that leave "selector". *)
Theorem linked_pipeline_is_a_dag (m : Routing.defined_modules) :
  let qp := Routing.qp_links m in
  let names := fst <$> Routing.modules qp in
  NoDup names
  ∧ (∀ l, l ∈ Routing.links qp →
       ∃ i j : nat, names !! i = Some (Routing.src l)
                    ∧ names !! j = Some (Routing.dest l) ∧ (i < j)%nat)
  ∧ (∀ l, l ∈ Routing.links qp →
       Routing.dest l ≠ "input" ∧ Routing.src l ≠ "summarizer")
  ∧ (∀ l, l ∈ Routing.links qp →
       (is_Some (Routing.condition_fn l) ↔ Routing.src l = "selector")
       ∧ (is_Some (Routing.input_fn l) ↔ Routing.src l = "selector")).
Proof.
  cbn. split; [|split; [|split]].
  - repeat (apply NoDup_cons; split;
              [rewrite ?not_elem_of_cons; repeat split;
               solve [discriminate | apply not_elem_of_nil]|]).
    apply NoDup_nil_2.
  - intros l Hl. set_unfold in Hl.
    destruct Hl as [->|[->|[->|[->|[->|[->|[]]]]]]]; cbn;
      [exists 0%nat, 1%nat | exists 1%nat, 2%nat
      | exists 1%nat, 3%nat | exists 2%nat, 4%nat
      | exists 3%nat, 4%nat | exists 0%nat, 4%nat];
      (split; [reflexivity|split; [reflexivity|lia]]).
  - intros l Hl. set_unfold in Hl.
    destruct Hl as [->|[->|[->|[->|[->|[->|[]]]]]]]; cbn; done.
  - intros l Hl. set_unfold in Hl.
    destruct Hl as [->|[->|[->|[->|[->|[->|[]]]]]]]; cbn;
      (split; split; intros H; try done; try (by inversion H);
       try (by eexists)).
Qed.
End Graph.

(** ** What a query touches *)

Section Queries.
Context `{FT : FrameworkTypes} `{FW : !Framework}.

(** X5.  However it ends, a query through the router makes at most three
    calls into the framework: the selection among [choices] for the query
    itself, the completion of the rewrite prompt filled in with the query,
    and a query to one of the two query engines -- the vector engine
    receiving the query itself. *)
Theorem router_query_makes_at_most_three_calls m q :
  calls_at_most 3 (router_call m q)
    (Routing.cell_run_router (Routing.qp_router m) q).
Proof.
  intros s. unfold Routing.cell_run_router. cbn.
  rewrite run_router_unrolled. unfold Routing.router_run, router_call.
  cases;
    (eexists; split; [rewrite <- ?app_assoc; reflexivity|]);
    (split; [cbn; lia|]);
    repeat first [apply List.Forall_nil | apply List.Forall_cons]; eauto 8.
Qed.

(** X6.  However it ends, a query through the pipeline with links makes at
    most four calls into the framework: building a selector, the selection
    among [choices] for the query itself, a retrieval by one of the two
    retrievers for the query itself, and the synthesis by the summarizer for
    the query itself.  It never builds an index, never queries a query
    engine and never calls the language model directly. *)
Theorem linked_query_makes_at_most_four_calls m q :
  calls_at_most 4 (links_call m q)
    (Routing.cell_run_links (Routing.qp_links m) q).
Proof.
  intros s. unfold Routing.cell_run_links. cbn.
  rewrite run_links_unrolled.
  unfold Routing.links_run, Routing.branch_run, links_call.
  cases;
    (eexists; split; [rewrite <- ?app_assoc; reflexivity|]);
    (split; [cbn; lia|]);
    repeat first [apply List.Forall_nil | apply List.Forall_cons]; eauto 8.
Qed.

(** X11.  [select_choice] first builds a selector.  When that raises, this
    is the one call it has made.  When it returns a selector, the function
    goes on to call [select] on that very selector, with the two [choices]
    and with the query it was given, unchanged, and makes no further call,
    whether [select] returns or raises.  Either way it shows nothing and
    leaves the credentials and the logger alone: the state it ends in is
    the state right after its last call. *)
Theorem select_choice_calls (q : string) (s : state) :
  (∀ e w,
     perform LLMSingleSelector_from_defaults
       (environ s) (openai_api_key s) (world s) = (Raise e, w) →
     (Routing.select_choice q s).2
     = after_call s LLMSingleSelector_from_defaults w)
  ∧ (∀ sel w1 r w2,
       perform LLMSingleSelector_from_defaults
         (environ s) (openai_api_key s) (world s) = (Ok sel, w1) →
       perform (selector_select sel Routing.choices q)
         (environ s) (openai_api_key s) w1 = (r, w2) →
       (Routing.select_choice q s).2
       = after_call (after_call s LLMSingleSelector_from_defaults w1)
           (selector_select sel Routing.choices q) w2).
Proof.
  split.
  - intros e w H. answered. reflexivity.
  - intros sel w1 r w2 H1 H2. answered.
    destruct r as [out|e]; cbn; [destruct (SelectorResult_ind out)|];
      unfold after_call; cbn; rewrite <- ?app_assoc; reflexivity.
Qed.

(** X10.  Whenever the cell that runs the pipeline with links ends normally,
    its value is the response the summarizer synthesized for the query from
    the nodes that one of the two retrievers returned for the query, that
    synthesis was the last call made, the last thing shown is the text of
    that response, and the cell after it, [len(response.source_nodes)],
    cannot fail: it calls nothing and shows the number of source nodes of
    that response in decimal. *)
Theorem linked_run_returns_a_response m q s v s' :
  Routing.cell_run_links (Routing.qp_links m) q s = (Ok v, s') →
  ∃ r retriever nodes w2 w3,
    v = VResponse r
    ∧ (retriever = Routing.vector_retriever m
       ∨ retriever = Routing.summary_retriever m)
    ∧ perform (retriever_retrieve retriever q)
        (environ s) (openai_api_key s) w2 = (Ok nodes, w3)
    ∧ perform (summarizer_synthesize (Routing.summarizer m) q nodes)
        (environ s) (openai_api_key s) w3 = (Ok r, world s')
    ∧ last (trace s')
      = Some (summarizer_synthesize (Routing.summarizer m) q nodes)
    ∧ last (outputs s') = Some (Printed (Response_str r))
    ∧ (Routing.cell_len v s').1 = Ok ()
    ∧ outputs (Routing.cell_len v s').2
      = outputs s' ++ [CellValue (str_len (source_nodes r))]
    ∧ trace (Routing.cell_len v s').2 = trace s'.
Proof.
  unfold Routing.cell_run_links. cbn. rewrite run_links_unrolled.
  unfold Routing.links_run, Routing.branch_run.
  cases; intros H; try discriminate; injection H as <- <-;
    eexists _, _, _, _, _; (split; [reflexivity|]); cbn;
    (split; [|split; [eassumption|]; split; [eassumption|];
              split; [apply last_snoc|]; split; [apply last_snoc|done]]);
    first [by left | by right].
Qed.

Lemma selector_dictionary_inj (q q' : string) (i i' : Z) :
  ({[ "query" := PStr q; "index" := PStr (str_int i) ]} : gmap string scalar)
  = {[ "query" := PStr q'; "index" := PStr (str_int i') ]} →
  q = q' ∧ i = i'.
Proof.
  intros H. split.
  - assert (Hq := f_equal (λ d : gmap string scalar, d !! "query") H).
    cbn in Hq. rewrite !lookup_insert_eq in Hq. congruence.
  - assert (Hi := f_equal (λ d : gmap string scalar, d !! "index") H).
    cbn in Hi.
    rewrite !lookup_insert_ne, !lookup_singleton_eq in Hi by discriminate.
    apply str_int_inj. congruence.
Qed.

(** X2.  The dictionary [select_choice] returns loses nothing of the
    selection: when two runs of [select_choice], on any queries and in any
    states, return the same dictionary, they were given the same query and
    their selectors chose the same index. *)
Theorem select_choice_dictionary_injective q s d s1 q' s' s1' :
  Routing.select_choice q s = (Ok d, s1) →
  Routing.select_choice q' s' = (Ok d, s1') →
  q = q'
  ∧ ∃ sel w out sel' w' out' i,
      perform (selector_select sel Routing.choices q)
        (environ s) (openai_api_key s) w = (Ok out, world s1)
      ∧ perform (selector_select sel' Routing.choices q')
          (environ s') (openai_api_key s') w' = (Ok out', world s1')
      ∧ SelectorResult_ind out = Ok i
      ∧ SelectorResult_ind out' = Ok i.
Proof.
  intros H H'.
  apply select_choice_success in H as (sel & w & out & i & _ & Hs & Hi & ->).
  apply select_choice_success in H'
    as (sel' & w' & out' & i' & _ & Hs' & Hi' & Hd).
  apply selector_dictionary_inj in Hd as [-> ->].
  split; [reflexivity|]. eexists _, _, _, _, _, _, _. eauto.
Qed.
End Queries.

(** ** Credentials and logging *)

Section Credentials.
Context `{FT : FrameworkTypes} `{FW : !Framework}.

Lemma keeps_do_call (c : call) : keeps_credentials (do_call c).
Proof. intros s. cbn. by destruct (perform c _ _ _). Qed.

Lemma keeps_shell_escape (cmd : string) :
  keeps_credentials (shell_escape cmd).
Proof. intros s. cbn. by destruct (perform _ _ _ _). Qed.

Lemma keeps_bind {A B} (m : M A) (k : A → M B) :
  keeps_credentials m → (∀ a, keeps_credentials (k a)) →
  keeps_credentials (bind m k).
Proof.
  intros Hm Hk s. destruct (Hm s) as [He Hkey]. cbn.
  destruct (m s) as [[a|e] s1]; cbn in *; [|done].
  destruct (Hk a s1) as [He' Hkey']. split; congruence.
Qed.

Lemma keeps_ext {A} (m m' : M A) :
  (∀ s, m s = m' s) → keeps_credentials m' → keeps_credentials m.
Proof. intros E H s. rewrite E. apply H. Qed.

Ltac keeps :=
  repeat match goal with
    | |- keeps_credentials (bind _ _) => apply keeps_bind; [|intros ?]
    | |- keeps_credentials (do_call ?c) => apply (keeps_do_call c)
    | |- keeps_credentials (shell_escape ?c) => apply (keeps_shell_escape c)
    | |- keeps_credentials (if ?b then _ else _) => destruct b
    | |- keeps_credentials (match ?x with _ => _ end) => destruct x
    | |- keeps_credentials _ => by intros ?
    end.

Lemma router_run_keeps_credentials m q :
  keeps_credentials (Routing.cell_run_router (Routing.qp_router m) q).
Proof.
  unfold Routing.cell_run_router. apply keeps_bind; [|intros ?; keeps].
  apply (keeps_ext _ _ (run_router_unrolled m q)).
  unfold Routing.router_run. keeps.
Qed.

Lemma links_run_keeps_credentials m q :
  keeps_credentials (Routing.cell_run_links (Routing.qp_links m) q).
Proof.
  unfold Routing.cell_run_links. apply keeps_bind; [|intros ?; keeps].
  apply (keeps_ext _ _ (run_links_unrolled m q)).
  unfold Routing.links_run, Routing.branch_run. keeps.
Qed.

(** X7.  The routing notebook never sets a credential: however a run of it
    ends, [os.environ] and [openai.api_key] are what they were before the
    first cell, so every call it makes is made with the credentials the
    kernel was started with. *)
Theorem routing_notebook_keeps_credentials :
  keeps_credentials Routing.notebook.
Proof.
  unfold Routing.notebook.
  repeat match goal with
    | |- keeps_credentials (bind (Routing.cell_run_router _ _) _) =>
        apply keeps_bind; [apply router_run_keeps_credentials|intros ?]
    | |- keeps_credentials (bind (Routing.cell_run_links _ _) _) =>
        apply keeps_bind; [apply links_run_keeps_credentials|intros ?]
    | |- keeps_credentials (bind _ _) => apply keeps_bind; [|intros ?]
    end.
  all: unfold Routing.cell_download, Routing.cell_documents,
    Routing.cell_define_modules, Routing.cell_visualize, Routing.cell_len.
  all: keeps.
Qed.

(** X8.  However a run of the Slack notebook ends, and whatever the
    environment held before, afterwards "SLACK_BOT_TOKEN" is "xoxb-", every
    other variable of the environment is untouched and [openai.api_key] is
    "sk-": the placeholders of the credentials cell replace a token and a
    key that were already configured. *)
Theorem slack_notebook_overwrites_credentials (s : state) :
  let s' := (SlackDemo.notebook s).2 in
  environ s' !! "SLACK_BOT_TOKEN" = Some "xoxb-"
  ∧ (∀ k, k ≠ "SLACK_BOT_TOKEN" → environ s' !! k = environ s !! k)
  ∧ openai_api_key s' = Some "sk-".
Proof.
  unfold SlackDemo.notebook, SlackDemo.cell_credentials,
    SlackDemo.cell_load, SlackDemo.cell_index, SlackDemo.cell_query,
    SlackDemo.cell_display.
  destruct s as [env key hs lvl outs tr w]; cbn.
  destruct hs; cases;
    (split; [first [reflexivity | apply lookup_insert_eq]|]);
    (split; [|reflexivity]); intros k Hk; by apply lookup_insert_ne.
Qed.

(** X9.  The credentials cell is safe to run again as far as the
    credentials go, but not for logging: a second run leaves the
    environment and the key as the first run left them and calls nothing,
    yet it adds one more handler on [sys.stdout] to the root logger, which
    after the first run already has at least two. *)
Theorem credentials_cell_run_again (s : state) :
  let s1 := (SlackDemo.cell_credentials s).2 in
  let s2 := (SlackDemo.cell_credentials s1).2 in
  environ s2 = environ s1
  ∧ openai_api_key s2 = openai_api_key s1
  ∧ root_level s2 = root_level s1
  ∧ trace s2 = trace s ∧ outputs s2 = outputs s ∧ world s2 = world s
  ∧ root_handlers s2 = root_handlers s1 ++ ["sys.stdout"]
  ∧ (2 ≤ length (root_handlers s1))%nat.
Proof.
  unfold SlackDemo.cell_credentials.
  destruct s as [env key hs lvl outs tr w]. destruct hs as [|h hs]; cbn.
  - rewrite insert_insert_eq. repeat split; lia.
  - rewrite insert_insert_eq. repeat split.
    rewrite length_app. cbn. lia.
Qed.
End Credentials.

(** * Further runs on the scripted framework *)

Section MoreScriptedRuns.
#[local] Existing Instance Scripted.types.
#[local] Existing Instance Scripted.framework.

Local Abbreviation script := Scripted.mkScript.
Local Abbreviation ready := Scripted.ready.
Local Abbreviation essay := Scripted.essay_modules.

(** Without an API key the selector cannot be built, and [select_choice]
    stops after that one call. *)
Lemma select_choice_calls_witness :
  (Routing.select_choice "q" (Scripted.fresh (script [1] true))).2
  = after_call (Scripted.fresh (script [1] true))
      LLMSingleSelector_from_defaults (script [1] true).
Proof.
  destruct (select_choice_calls "q" (Scripted.fresh (script [1] true)))
    as (H & _).
  apply (H (ExternalError "authentication")). reflexivity.
Defined.

(** With the selector answering 0 the cell returns the response the
    summarizer synthesized from the nodes of the vector retriever and has
    printed its text last. *)
Lemma linked_run_returns_a_response_witness :
  ∃ r,
    (Routing.cell_run_links (Routing.qp_links essay) "q"
       (ready (script [0] true))).1 = Ok (VResponse r)
    ∧ last (outputs (Routing.cell_run_links (Routing.qp_links essay) "q"
                       (ready (script [0] true))).2)
      = Some (Printed (Response_str r)).
Proof.
  exists ("q", ["text of pg_essay.txt"]). split; [reflexivity|].
  assert (Routing.cell_run_links (Routing.qp_links essay) "q"
            (ready (script [0] true))
          = (Ok (@VResponse Scripted.types ("q", ["text of pg_essay.txt"])),
             (Routing.cell_run_links (Routing.qp_links essay) "q"
                (ready (script [0] true))).2)) as E
    by (vm_compute; reflexivity).
  destruct (linked_run_returns_a_response _ _ _ _ _ E)
    as (r & _ & _ & _ & _ & Hv & _ & _ & _ & _ & Hlast & _).
  injection Hv as <-. exact Hlast.
Defined.

(** Two runs on the query "q" with the selector answering 1 return the
    same dictionary. *)
Lemma select_choice_dictionary_injective_witness :
  "q" = "q"
  ∧ ∃ sel w out sel' w' out' i,
      perform (selector_select sel Routing.choices "q")
        ∅ (Some "sk-") w = (Ok out, script [] true)
      ∧ perform (selector_select sel' Routing.choices "q")
          ∅ (Some "sk-") w' = (Ok out', script [7] true)
      ∧ SelectorResult_ind out = Ok i
      ∧ SelectorResult_ind out' = Ok i.
Proof.
  assert (E1 : Routing.select_choice "q" (ready (script [1] true))
               = (Ok {[ "query" := PStr "q"; "index" := PStr "1" ]},
                  (Routing.select_choice "q" (ready (script [1] true))).2))
    by (vm_compute; reflexivity).
  assert (E2 : Routing.select_choice "q" (ready (script [1; 7] true))
               = (Ok {[ "query" := PStr "q"; "index" := PStr "1" ]},
                  (Routing.select_choice "q"
                     (ready (script [1; 7] true))).2))
    by (vm_compute; reflexivity).
  exact (select_choice_dictionary_injective _ _ _ _ _ _ _ E1 E2).
Defined.
End MoreScriptedRuns.
